(** * BLE advertisement capture: the AD-structure encoder, the capture store
      and the replay of [capture.py], as a shallow embedding.

    Python values are modelled as follows.
    - [int] is [Z].
    - [str] is a list of Unicode code points ([N]); [len] is [length].
    - [bytes] is a list of [Byte.byte]; iterating one yields the [int]s
      [0..255] ([ints_of_bytes]).
    - the list [ad_data] is a [list Z] (a Python list of [int]s).
    - an exception that the source does not catch is the [Raise] result.
    - the interpreter's Unicode database (which code points are white space,
      which are decimal digits) is a parameter, [unicode_db]. *)

From Stdlib Require Import ZArith NArith Bool Lia String Ascii List.
From Stdlib.Strings Require Import Byte.
From Stdlib Require Import DecimalString.
Import ListNotations.

Local Open Scope Z_scope.

(* ------------------------------------------------------------------ *)
(** ** Python strings *)

Module Py.

Abbreviation str := (list N) (only parsing).

(** A literal of the source, written as a Rocq string of ASCII characters. *)
Definition lit (s : string) : str := map N_of_ascii (list_ascii_of_string s).

Definition str_eqb (a b : str) : bool :=
  if list_eq_dec N.eq_dec a b then true else false.

(** The part of the Unicode database the built-ins below consult for code
    points outside ASCII: [Py_UNICODE_ISSPACE] and [Py_UNICODE_TODECIMAL]. *)
Record unicode_db := {
  uni_isspace : N -> bool;
  uni_todecimal : N -> option N
}.

(** The database restricted to the Latin-1 block, where it has two white
    space characters (NEL, NBSP) and no decimal digit besides ASCII's. *)
Definition latin1_db : unicode_db := {|
  uni_isspace := fun c => orb (N.eqb c 0x85) (N.eqb c 0xA0);
  uni_todecimal := fun _ => None
|}.

(** [Py_ISSPACE]: the C locale's white space. *)
Definition c_isspace (c : N) : bool :=
  orb (andb (N.leb 9 c) (N.leb c 13)) (N.eqb c 32).

(** [str.isspace] on one character: the ASCII table has the C white space
    and the separators 0x1C..0x1F. *)
Definition isspace (db : unicode_db) (c : N) : bool :=
  if N.ltb c 128
  then orb (c_isspace c) (andb (N.leb 28 c) (N.leb c 31))
  else uni_isspace db c.

(* ---------- bytes ---------- *)

Abbreviation bytes := (list byte) (only parsing).

Definition ints_of_bytes (b : bytes) : list Z :=
  map (fun x => Z.of_N (Byte.to_N x)) b.

(* ---------- exceptions ---------- *)

Inductive exn :=
| UnicodeEncodeError
| StructError
| ValueError
| IndexError
| OSError.

Inductive result (A : Type) :=
| Ok (a : A)
| Raise (e : exn).
Arguments Ok {A} a.
Arguments Raise {A} e.

Definition bind {A B} (r : result A) (k : A -> result B) : result B :=
  match r with
  | Ok a => k a
  | Raise e => Raise e
  end.

(* ---------- str.encode('utf-8') ---------- *)

(** One code point. A lone surrogate cannot be encoded; a [str] holds no
    code point above 0x10FFFF, so the last branch is never taken. *)
Definition utf8_char (c : N) : result (list Z) :=
  let z := Z.of_N c in
  if z <? 0x80 then Ok [z]
  else if z <? 0x800 then
    Ok [Z.lor 0xC0 (Z.shiftr z 6); Z.lor 0x80 (Z.land z 0x3F)]
  else if z <? 0x10000 then
    if andb (0xD800 <=? z) (z <=? 0xDFFF) then Raise UnicodeEncodeError
    else Ok [Z.lor 0xE0 (Z.shiftr z 12);
             Z.lor 0x80 (Z.land (Z.shiftr z 6) 0x3F);
             Z.lor 0x80 (Z.land z 0x3F)]
  else if z <? 0x110000 then
    Ok [Z.lor 0xF0 (Z.shiftr z 18);
        Z.lor 0x80 (Z.land (Z.shiftr z 12) 0x3F);
        Z.lor 0x80 (Z.land (Z.shiftr z 6) 0x3F);
        Z.lor 0x80 (Z.land z 0x3F)]
  else Raise UnicodeEncodeError.

Fixpoint encode_utf8 (s : str) : result (list Z) :=
  match s with
  | [] => Ok []
  | c :: s' =>
      bind (utf8_char c) (fun b =>
      bind (encode_utf8 s') (fun bs => Ok (b ++ bs)))
  end.

(* ---------- struct.pack('<H', v) ---------- *)

Definition pack_H (v : Z) : result (list Z) :=
  if andb (0 <=? v) (v <=? 0xFFFF)
  then Ok [Z.land v 0xFF; Z.shiftr v 8]
  else Raise StructError.

(* ---------- str.split(sep)[0] and str.split(sep) ---------- *)

(** [s.split(sep)] for a one-character separator: never empty. *)
Fixpoint split_on (sep : N) (s : str) : list str :=
  match s with
  | [] => [[]]
  | c :: s' =>
      if N.eqb c sep then [] :: split_on sep s'
      else match split_on sep s' with
           | [] => [[c]]
           | w :: ws => (c :: w) :: ws
           end
  end.

Definition dash : N := 45.

(** [s.split('-')[0]] *)
Definition first_group (s : str) : str :=
  match split_on dash s with
  | [] => []
  | w :: _ => w
  end.

(** [s.split()]: split on runs of white space, no empty words.
    [cur] is the word being read, reversed. *)
Fixpoint split_ws_aux (db : unicode_db) (cur : str) (s : str) : list str :=
  match s with
  | [] => match cur with [] => [] | _ => [rev cur] end
  | c :: s' =>
      if isspace db c
      then match cur with
           | [] => split_ws_aux db [] s'
           | _ => rev cur :: split_ws_aux db [] s'
           end
      else split_ws_aux db (c :: cur) s'
  end.

Definition split_ws (db : unicode_db) (s : str) : list str :=
  split_ws_aux db [] s.

(** [sep.join(words)] *)
Fixpoint join (sep : str) (ws : list str) : str :=
  match ws with
  | [] => []
  | [w] => w
  | w :: ws' => w ++ sep ++ join sep ws'
  end.

(* ---------- int(s, 16) ---------- *)

(** [Py_UNICODE_TODECIMAL] *)
Definition todecimal (db : unicode_db) (c : N) : option N :=
  if N.ltb c 128
  then if andb (N.leb 48 c) (N.leb c 57) then Some (c - 48)%N else None
  else uni_todecimal db c.

(** [_PyUnicode_TransformDecimalAndSpaceToASCII]: an ASCII string is returned
    as it is; otherwise white space becomes a blank, a decimal digit its
    ASCII digit, and the first other character outside ASCII becomes '?' and
    ends the result. *)
Fixpoint transform_loop (db : unicode_db) (s : str) : str :=
  match s with
  | [] => []
  | c :: s' =>
      if N.ltb c 127 then c :: transform_loop db s'
      else if isspace db c then 32%N :: transform_loop db s'
      else match todecimal db c with
           | Some d => (48 + d)%N :: transform_loop db s'
           | None => [63%N]
           end
  end.

Definition is_ascii (s : str) : bool := forallb (fun c => N.ltb c 128) s.

Definition to_ascii_digits (db : unicode_db) (s : str) : str :=
  if is_ascii s then s else transform_loop db s.

Fixpoint skip_spaces (s : str) : str :=
  match s with
  | c :: s' => if c_isspace c then skip_spaces s' else s
  | [] => []
  end.

(** [_PyLong_DigitValue] below 16 *)
Definition digit_value (c : N) : option Z :=
  if andb (N.leb 48 c) (N.leb c 57) then Some (Z.of_N c - 48)
  else if andb (N.leb 97 c) (N.leb c 102) then Some (Z.of_N c - 87)
  else if andb (N.leb 65 c) (N.leb c 70) then Some (Z.of_N c - 55)
  else None.

Definition underscore : N := 95.

(** The scan of [long_from_binary_base]: digits and single underscores;
    [None] on a doubled or a trailing underscore, otherwise the value read
    and the text left. *)
Fixpoint scan_digits (prev_us : bool) (acc : Z) (s : str) : option (Z * str) :=
  match s with
  | [] => if prev_us then None else Some (acc, [])
  | c :: s' =>
      if N.eqb c underscore
      then if prev_us then None else scan_digits true acc s'
      else match digit_value c with
           | Some d => scan_digits false (acc * 16 + d) s'
           | None => if prev_us then None else Some (acc, s)
           end
  end.

Definition strip_sign (s : str) : bool * str :=
  match s with
  | 43%N :: r => (false, r)
  | 45%N :: r => (true, r)
  | _ => (false, s)
  end.

(** The optional prefix 0x or 0X, and one underscore after it. *)
Definition strip_prefix (s : str) : str :=
  match s with
  | 48%N :: x :: r =>
      if orb (N.eqb x 120) (N.eqb x 88)
      then match r with
           | 95%N :: r' => r'
           | _ => r
           end
      else s
  | _ => s
  end.

(** [int(s, 16)] ([PyLong_FromUnicodeObject], [PyLong_FromString]). *)
Definition int_base16 (db : unicode_db) (s : str) : result Z :=
  let s1 := skip_spaces (to_ascii_digits db s) in
  let '(neg, s2) := strip_sign s1 in
  let s3 := strip_prefix s2 in
  match s3 with
  | 95%N :: _ => Raise ValueError
  | _ =>
      match scan_digits false 0 s3 with
      | None => Raise ValueError
      | Some (v, rest) =>
          if Nat.eqb (length rest) (length s3) then Raise ValueError
          else match skip_spaces rest with
               | [] => Ok (if neg then - v else v)
               | _ => Raise ValueError
               end
      end
  end.

(* ---------- f'{z:02X}' ---------- *)

Definition hex_upper_digit (d : Z) : N :=
  if d <? 10 then Z.to_N (48 + d) else Z.to_N (55 + d).

Fixpoint hex_upper_aux (fuel : nat) (z : Z) (acc : str) : str :=
  match fuel with
  | O => acc
  | S fuel' =>
      let acc' := hex_upper_digit (z mod 16) :: acc in
      if z / 16 =? 0 then acc' else hex_upper_aux fuel' (z / 16) acc'
  end.

(** The digits of a non-negative [z] in upper-case hexadecimal. *)
Definition hex_upper (z : Z) : str :=
  hex_upper_aux (S (Z.to_nat (Z.log2 z))) z [].

(** [f'{z:02X}']: zero-filled to width 2, the sign counted in the width. *)
Definition format_02X (z : Z) : str :=
  if z <? 0 then 45%N :: hex_upper (- z)
  else let d := hex_upper z in
       if Nat.ltb (length d) 2 then 48%N :: d else d.

(* ---------- appending to a list inside try/except ---------- *)

(** A block of statements that appends to [ad_data] and may raise: what it
    appended before it ended, and the exception if it raised. *)
Abbreviation appender := (list Z * option exn)%type (only parsing).

Definition emit (l : list Z) : appender := (l, None).

Definition seq (a b : appender) : appender :=
  match a with
  | (l, Some e) => (l, Some e)
  | (l, None) => (l ++ fst b, snd b)
  end.

(** Evaluate an expression that may raise, then go on. *)
Definition eval {A} (r : result A) (k : A -> appender) : appender :=
  match r with
  | Ok a => k a
  | Raise e => ([], Some e)
  end.

(** [try: body / except: pass]: what the body appended stays, the
    exception is dropped. *)
Definition try_pass (a : appender) : appender := (fst a, None).

(** [for x in l: body x] *)
Fixpoint for_each {A} (body : A -> appender) (l : list A) : appender :=
  match l with
  | [] => emit []
  | x :: l' => seq (body x) (for_each body l')
  end.

End Py.

Import Py.

(* ------------------------------------------------------------------ *)
(** ** The data the scanner hands over, and a captured packet *)

(** [device]: [device.address], [device.name] ([None] when absent). *)
Record BLEDevice := {
  dev_address : str;
  dev_name : option str
}.

(** [advertisement_data]; the two dicts in iteration order. *)
Record AdvertisementData := {
  adv_rssi : Z;
  service_uuids : list str;
  service_data : list (str * bytes);
  manufacturer_data : list (Z * bytes)
}.

(** The dict [packet_info]. *)
Record packet_info := {
  timestamp : str;
  address : str;
  name : str;
  rssi : Z;
  raw_data : list Z;
  hci_cmd : str
}.

(* ------------------------------------------------------------------ *)
(** ** [BLEPacketCapture.parse_advertisement_data] *)

Definition Unknown : str := lit "Unknown".

(** [device.name or 'Unknown'] *)
Definition name_or_unknown (n : option str) : str :=
  match n with
  | None => Unknown
  | Some [] => Unknown
  | Some s => s
  end.

(** 1. Flags *)
Definition flags : list Z := [0x02; 0x01; 0x06].

(** 2. Local Name *)
Definition local_name (n : option str) : appender :=
  match n with
  | None => emit []
  | Some [] => emit []
  | Some s =>
      eval (encode_utf8 s) (fun b =>
        let name_bytes := firstn 29 b in
        if Nat.ltb 0 (length name_bytes)
        then emit ([Z.of_nat (length name_bytes) + 1; 0x09] ++ name_bytes)
        else emit [])
  end.

(** 3. Service UUIDs: the body of the [try]. *)
Definition service_uuid_body (db : unicode_db) (uuid_str : str) : appender :=
  if Nat.eqb (length uuid_str) 36
  then
    eval (int_base16 db (first_group uuid_str)) (fun n =>
      let uuid_16bit := Z.land n 0xFFFF in
      seq (emit [0x03; 0x03])
          (eval (pack_H uuid_16bit) emit))
  else
    eval (int_base16 db uuid_str) (fun n =>
      let uuid_val := Z.land n 0xFFFF in
      seq (emit [0x03; 0x03])
          (eval (pack_H uuid_val) emit)).

Definition service_uuid_element (db : unicode_db) (uuid_str : str) : appender :=
  try_pass (service_uuid_body db uuid_str).

(** 4. Service Data: the body of the [try]. *)
Definition service_data_body (db : unicode_db) (kv : str * bytes) : appender :=
  let '(uuid_str, data) := kv in
  eval (int_base16 db (first_group uuid_str)) (fun n =>
    let uuid_16bit := Z.land n 0xFFFF in
    let service_data_len := 2 + Z.of_nat (length data) + 1 in
    if service_data_len <=? 31
    then seq (emit [service_data_len; 0x16])
        (seq (eval (pack_H uuid_16bit) emit)
             (emit (ints_of_bytes data)))
    else emit []).

Definition service_data_element (db : unicode_db) (kv : str * bytes) : appender :=
  try_pass (service_data_body db kv).

(** 5. Manufacturer Data: not inside a [try]. *)
Definition manufacturer_element (kv : Z * bytes) : appender :=
  let '(company_id, data) := kv in
  let manu_data_len := 2 + Z.of_nat (length data) + 1 in
  if manu_data_len <=? 31
  then seq (emit [manu_data_len; 0xFF])
      (seq (eval (pack_H company_id) emit)
           (emit (ints_of_bytes data)))
  else emit [].

(** Blocks 3 to 5, which do not look at the device. *)
Definition other_elements (db : unicode_db)
    (advertisement_data : AdvertisementData) : appender :=
  seq (for_each (service_uuid_element db) (service_uuids advertisement_data))
 (seq (for_each (service_data_element db) (service_data advertisement_data))
      (for_each manufacturer_element (manufacturer_data advertisement_data))).

(** [ad_data] as it stands before the cut to 31 bytes. *)
Definition build_ad_data (db : unicode_db) (device : BLEDevice)
    (advertisement_data : AdvertisementData) : appender :=
  seq (emit flags)
 (seq (local_name (dev_name device))
      (other_elements db advertisement_data)).

(** [if len(ad_data) > 31: ad_data = ad_data[:31]] *)
Definition limit31 (ad_data : list Z) : list Z :=
  if Nat.ltb 31 (length ad_data) then firstn 31 ad_data else ad_data.

Definition hci_prefix : str := lit "sudo hcitool -i hci0 cmd 0x08 0x0008 ".

Definition blank : str := [32%N].

(** The command text built when [ad_data] is not empty. *)
Definition hci_cmd_of (ad_data : list Z) : str :=
  let data_length := Z.of_nat (length ad_data) in
  let ad_data_padded :=
    ad_data ++ repeat 0x00 (Z.to_nat (31 - Z.of_nat (length ad_data))) in
  let hci_params := format_02X data_length :: map format_02X ad_data_padded in
  hci_prefix ++ join blank hci_params.

(** The last block: [raw_data] and [hci_cmd] are set only [if ad_data]. *)
Definition finish (now : str) (device : BLEDevice)
    (advertisement_data : AdvertisementData) (ad_data : list Z) : packet_info :=
  let packet := {|
    timestamp := now;
    address := dev_address device;
    name := name_or_unknown (dev_name device);
    rssi := adv_rssi advertisement_data;
    raw_data := [];
    hci_cmd := []
  |} in
  match ad_data with
  | [] => packet
  | _ => {|
    timestamp := timestamp packet;
    address := address packet;
    name := name packet;
    rssi := rssi packet;
    raw_data := ad_data;
    hci_cmd := hci_cmd_of ad_data
  |}
  end.

(** [now] is what [datetime.now().strftime(...)] gives at the call. *)
Definition parse_advertisement_data (db : unicode_db) (now : str)
    (device : BLEDevice) (advertisement_data : AdvertisementData)
    : result packet_info :=
  match build_ad_data db device advertisement_data with
  | (_, Some e) => Raise e
  | (ad_data, None) =>
      Ok (finish now device advertisement_data (limit31 ad_data))
  end.

(* ------------------------------------------------------------------ *)
(** ** The capture store: [self.captured_packets] and [detection_callback] *)

Definition ints_eqb (a b : list Z) : bool :=
  if list_eq_dec Z.eq_dec a b then true else false.

(** [p['address'] == packet['address'] and p["raw_data"] == packet["raw_data"]] *)
Definition same_key (packet p : packet_info) : bool :=
  andb (str_eqb (address p) (address packet))
       (ints_eqb (raw_data p) (raw_data packet)).

(** [next((p for p in captured_packets if ...), None)]: the position of the
    first packet with the key, which stands for the reference to it. *)
Fixpoint find_existing (packet : packet_info) (captured_packets : list packet_info)
    : option nat :=
  match captured_packets with
  | [] => None
  | p :: rest =>
      if same_key packet p then Some O
      else option_map S (find_existing packet rest)
  end.

(** [existing['timestamp'] = ...; existing['rssi'] = ...] *)
Definition refresh (packet existing : packet_info) : packet_info := {|
  timestamp := timestamp packet;
  address := address existing;
  name := name existing;
  rssi := rssi packet;
  raw_data := raw_data existing;
  hci_cmd := hci_cmd existing
|}.

(** The assignment through the reference: the object at position [i] changes
    where it lies in the list. *)
Fixpoint update_at (i : nat) (f : packet_info -> packet_info)
    (l : list packet_info) : list packet_info :=
  match l, i with
  | [], _ => []
  | p :: rest, O => f p :: rest
  | p :: rest, S i' => p :: update_at i' f rest
  end.

(** [x in targets], for [x] a name that may be [None]. *)
Definition name_in (n : option str) (targets : list str) : bool :=
  match n with
  | None => false
  | Some s => existsb (str_eqb s) targets
  end.

(** A filter argument is [None] or a list; both [None] and the empty list
    are false in a condition. *)
Definition truthy (targets : option (list str)) : bool :=
  match targets with
  | Some (_ :: _) => true
  | _ => false
  end.

Definition targets_of (targets : option (list str)) : list str :=
  match targets with
  | Some l => l
  | None => []
  end.

(** The two early [return]s of the callback. *)
Definition filtered_out (target_names target_addresses : option (list str))
    (device : BLEDevice) : bool :=
  orb (andb (truthy target_names)
            (negb (name_in (dev_name device) (targets_of target_names))))
      (andb (truthy target_addresses)
            (negb (existsb (str_eqb (dev_address device))
                           (targets_of target_addresses)))).

(** One call of [detection_callback]: the store after it, or the exception
    [parse_advertisement_data] raised, which leaves the store as it was.
    Printing is left out. *)
Definition detection_callback (db : unicode_db)
    (target_names target_addresses : option (list str)) (now : str)
    (device : BLEDevice) (advertisement_data : AdvertisementData)
    (captured_packets : list packet_info) : result (list packet_info) :=
  if filtered_out target_names target_addresses device
  then Ok captured_packets
  else
    bind (parse_advertisement_data db now device advertisement_data)
      (fun packet =>
         match find_existing packet captured_packets with
         | Some i => Ok (update_at i (refresh packet) captured_packets)
         | None => Ok (captured_packets ++ [packet])
         end).

(** The stores a capture session can hold. *)
Inductive reachable (db : unicode_db) : list packet_info -> Prop :=
| reachable_init : reachable db []
| reachable_step : forall tn ta now device adv s s',
    reachable db s ->
    detection_callback db tn ta now device adv s = Ok s' ->
    reachable db s'.

(** [get_hci_commands]: the dicts with keys name, address, command. *)
Definition get_hci_commands (captured_packets : list packet_info)
    : list (str * str * str) :=
  map (fun packet => (name packet, address packet, hci_cmd packet))
      (filter (fun packet => negb (str_eqb (hci_cmd packet) []))
              captured_packets).

(* ------------------------------------------------------------------ *)
(** ** [replay_packet] *)

(** What a replay ends with; each corresponds to one message printed. *)
Inductive outcome :=
| IndexOutOfRange
| NoCommand
| Success
| ExecutionFailed (stderr : str)
| LaunchError (e : exn).

(** [subprocess.run(cmd, capture_output=True, text=True)] is the external
    process layer, [run]: the return code and the error text, or an
    exception. The result has the outcome, the commands handed to [run], and
    the store afterwards. An exception that escapes is [Raise]. *)
Definition replay_packet (db : unicode_db)
    (run : list str -> result (Z * str))
    (captured_packets : list packet_info) (index : Z)
    : result outcome * list (list str) * list packet_info :=
  if andb (0 <=? index) (index <? Z.of_nat (length captured_packets))
  then
    match nth_error captured_packets (Z.to_nat index) with
    | None => (Raise IndexError, [], captured_packets)
    | Some packet =>
        match hci_cmd packet with
        | [] => (Ok NoCommand, [], captured_packets)
        | _ =>
            let cmd := split_ws db (hci_cmd packet) in
            match run cmd with
            | Ok (returncode, stderr) =>
                if returncode =? 0
                then (Ok Success, [cmd], captured_packets)
                else (Ok (ExecutionFailed stderr), [cmd], captured_packets)
            | Raise e => (Ok (LaunchError e), [cmd], captured_packets)
            end
        end
    end
  else (Ok IndexOutOfRange, [], captured_packets).

(* ------------------------------------------------------------------ *)
(** ** Concrete observations *)

Definition dev_test : BLEDevice :=
  {| dev_address := lit "AA:BB:CC:DD:EE:FF"; dev_name := Some (lit "Test") |}.

Definition adv_empty : AdvertisementData :=
  {| adv_rssi := -42; service_uuids := []; service_data := [];
     manufacturer_data := [] |}.

Definition battery_uuid : str := lit "0000180f-0000-1000-8000-00805f9b34fb".

Definition now0 : str := lit "2024-01-01 12:00:00".
Definition now1 : str := lit "2024-01-01 12:00:05".

(** The same observation as [adv_empty], heard weaker. *)
Definition adv_weak : AdvertisementData :=
  {| adv_rssi := -60; service_uuids := []; service_data := [];
     manufacturer_data := [] |}.

(** 28 bytes of manufacturer data: with the name the list exceeds 31. *)
Definition adv_long : AdvertisementData :=
  {| adv_rssi := -50; service_uuids := []; service_data := [];
     manufacturer_data := [(0x004C, repeat x01 28)] |}.

(** Two UUIDs and one service-data key that do not parse, among ones that
    do. *)
Definition adv_mixed : AdvertisementData :=
  {| adv_rssi := -70;
     service_uuids := [battery_uuid; lit "zz"; lit "180A"];
     service_data := [(lit "zz", [x01]); (lit "feaa", [x02])];
     manufacturer_data := [(0x004C, [x02; x15])] |}.

(** 36 characters that are not a UUID in dashed form. *)
Definition odd_uuid : str := lit "180f-zzzzzzzzzzzzzzzzzzzzzzzzzzzzzzz".

Definition dev_nameless : BLEDevice :=
  {| dev_address := lit "11:22:33:44:55:66"; dev_name := None |}.

Definition test_payload : list Z :=
  [0x02; 0x01; 0x06; 0x05; 0x09; 0x54; 0x65; 0x73; 0x74].

(* ------------------------------------------------------------------ *)
(** ** Vocabulary of the statements *)

Definition is_byte (z : Z) : Prop := 0 <= z < 256.

(** The two bytes of [struct.pack('<H', v)], low byte first. *)
Definition le16 (v : Z) : list Z := [Z.land v 0xFF; Z.shiftr v 8].

(** The number a service UUID string stands for, before the mask. *)
Definition service_uuid_value (db : unicode_db) (uuid_str : str) : result Z :=
  if Nat.eqb (length uuid_str) 36
  then int_base16 db (first_group uuid_str)
  else int_base16 db uuid_str.

(** The canonical dashed form of a UUID, in the words of the specification:
    36 characters, with dashes at positions 8, 13, 18 and 23 and nowhere
    else. *)
Definition dashed_form_36 (s : str) : bool :=
  andb (Nat.eqb (length s) 36)
       (forallb (fun ic =>
                   Bool.eqb (N.eqb (snd ic) dash)
                            (existsb (Nat.eqb (fst ic)) [8; 13; 18; 23]%nat))
                (combine (List.seq 0 36) s)).

(** The parse as the specification words it: the first group for a string in
    dashed form, the whole string otherwise. *)
Definition spec_service_uuid_value (db : unicode_db) (uuid_str : str)
    : result Z :=
  if dashed_form_36 uuid_str
  then int_base16 db (first_group uuid_str)
  else int_base16 db uuid_str.

(** A Unicode scalar value: a code point that is not a surrogate. *)
Definition scalar (c : N) : Prop :=
  (c < 0xD800 \/ 0xDFFF < c < 0x110000)%N.

(** A name the scanner can deliver: absent, or text of scalar values. *)
Definition well_formed_name (n : option str) : Prop :=
  match n with
  | None => True
  | Some s => Forall scalar s
  end.

(** Company identifiers are 16-bit numbers. *)
Definition company_ids_16bit (md : list (Z * bytes)) : Prop :=
  Forall (fun kv => 0 <= fst kv <= 0xFFFF) md.

Definition well_formed (device : BLEDevice) (adv : AdvertisementData) : Prop :=
  well_formed_name (dev_name device) /\
  company_ids_16bit (manufacturer_data adv).

(** Two upper-case hexadecimal digits for a byte. *)
Definition two_hex (b : Z) : str :=
  [hex_upper_digit (b / 16); hex_upper_digit (b mod 16)].

Definition is_hex_upper (c : N) : Prop :=
  (48 <= c <= 57 \/ 65 <= c <= 70)%N.

(** A token of exactly two upper-case hexadecimal digits. *)
Definition two_hex_token (w : str) : Prop :=
  exists a b, w = [a; b] /\ is_hex_upper a /\ is_hex_upper b.

(** The words of the command up to and including the opcode pair. *)
Definition opcode_words : list str :=
  map lit ["sudo"; "hcitool"; "-i"; "hci0"; "cmd"; "0x08"; "0x0008"]%string.

(** The words that follow the opcode pair 0x08 0x0008 in a list of words. *)
Fixpoint after_opcode (ws : list str) : list str :=
  match ws with
  | [] => []
  | w :: ws' =>
      match ws' with
      | w' :: rest =>
          if andb (str_eqb w (lit "0x08")) (str_eqb w' (lit "0x0008"))
          then rest else after_opcode ws'
      | [] => []
      end
  end.

(** No two packets of the store have the same (address, payload) key. *)
Fixpoint distinct_keys (s : list packet_info) : Prop :=
  match s with
  | [] => True
  | p :: rest =>
      (forall q, In q rest -> same_key p q = false) /\ distinct_keys rest
  end.

(** A word: not empty, and no white space in it. *)
Definition is_word (db : unicode_db) (w : list N) : Prop :=
  w <> [] /\ Forall (fun c => isspace db c = false) w.

(** The parameters of the command: the length, then the 31 padded bytes. *)
Definition hci_params_of (ad_data : list Z) : list (list N) :=
  two_hex (Z.of_nat (length ad_data))
  :: map two_hex (ad_data ++ repeat 0 (31 - length ad_data)).

(** A stored packet is what the encoder returned for some observation, but
    for its time stamp and RSSI. *)
Definition encoded (db : unicode_db) (p : packet_info) : Prop :=
  exists now device adv q,
    parse_advertisement_data db now device adv = Ok q /\
    address p = address q /\ name p = name q /\
    raw_data p = raw_data q /\ hci_cmd p = hci_cmd q.

(** Nothing, or an element whose type byte is not 0x09. *)
Definition tagged (l : list Z) : Prop :=
  l = [] \/ exists a t r, l = a :: t :: r /\ t <> 0x09.

(** The observation with another list of service UUIDs. *)
Definition with_service_uuids (adv : AdvertisementData) (l : list (list N))
    : AdvertisementData := {|
  adv_rssi := adv_rssi adv;
  service_uuids := l;
  service_data := service_data adv;
  manufacturer_data := manufacturer_data adv
|}.

(** The observation with another service-data dict. *)
Definition with_service_data (adv : AdvertisementData)
    (l : list (list N * list byte)) : AdvertisementData := {|
  adv_rssi := adv_rssi adv;
  service_uuids := service_uuids adv;
  service_data := l;
  manufacturer_data := manufacturer_data adv
|}.

Definition pkt_test (now : list N) : packet_info := {|
  timestamp := now;
  address := lit "AA:BB:CC:DD:EE:FF";
  name := lit "Test";
  rssi := -42;
  raw_data := [0x02; 0x01; 0x06; 0x05; 0x09; 0x54; 0x65; 0x73; 0x74];
  hci_cmd := lit ("sudo hcitool -i hci0 cmd 0x08 0x0008 "
                  ++ "09 02 01 06 05 09 54 65 73 74 "
                  ++ "00 00 00 00 00 00 00 00 00 00 00 "
                  ++ "00 00 00 00 00 00 00 00 00 00 00")
|}.

(** The value of a text of hexadecimal digits, most significant first. *)
Definition hex_value (s : list N) : Z :=
  fold_left (fun acc c =>
               match digit_value c with
               | Some d => acc * 16 + d
               | None => acc
               end) s 0.

Definition is_hex_digit (c : N) : Prop := exists d, digit_value c = Some d.

(* ------------------------------------------------------------------ *)
(** ** [print_packet_info], [save_to_file] and what the callback prints *)

(** [f'{z}'] for an [int]: decimal digits, with a minus sign when negative. *)
Definition format_int (z : Z) : str :=
  lit (NilZero.string_of_int (Z.to_int z)).

(** [' '.join(f'{b:02X}' for b in packet['raw_data'])] *)
Definition hex_dump (raw_data : list Z) : str :=
  join blank (map format_02X raw_data).

(** ["-" * 80] and ["=" * 80] *)
Definition dashes80 : str := repeat 45%N 80.


(** The labels of the source, as code points. *)
Definition label_time : str := [0x65F6; 0x95F4; 0x3A; 0x20]%N.
Definition label_address : str := [0x5730; 0x5740; 0x3A; 0x20]%N.
Definition label_name : str := [0x540D; 0x79F0; 0x3A; 0x20]%N.
Definition label_raw : str := [0x539F; 0x59CB; 0x6570; 0x636E; 0x3A; 0x20]%N.
Definition label_cmd : str := [0x48; 0x43; 0x49; 0x547D; 0x4EE4; 0x3A; 0x20]%N.

(** [print_packet_info]: the texts of the successive [print] calls. *)
Definition print_packet_info (packet : packet_info) : list str :=
  [ label_time ++ timestamp packet;
    label_address ++ address packet;
    label_name ++ name packet;
    lit "RSSI: " ++ format_int (rssi packet) ++ lit " dBm" ]
  ++ match raw_data packet with
     | [] => []
     | _ => [ label_raw ++ hex_dump (raw_data packet);
              label_cmd ++ hci_cmd packet ]
     end
  ++ [ dashes80 ].




(** [detection_callback] with what it prints: a new packet is printed, a
    repeated one is not. *)
Definition detection_callback_full (db : unicode_db)
    (target_names target_addresses : option (list str)) (now : str)
    (device : BLEDevice) (advertisement_data : AdvertisementData)
    (captured_packets : list packet_info)
    : result (list packet_info * list str) :=
  if filtered_out target_names target_addresses device
  then Ok (captured_packets, [])
  else
    bind (parse_advertisement_data db now device advertisement_data)
      (fun packet =>
         match find_existing packet captured_packets with
         | Some i => Ok (update_at i (refresh packet) captured_packets, [])
         | None => Ok (captured_packets ++ [packet], print_packet_info packet)
         end).

(* ------------------------------------------------------------------ *)
(** ** Further vocabulary *)

(** A manufacturer entry on which [struct.pack] is reached and fails. *)
Definition bad_manufacturer (kv : Z * bytes) : bool :=
  andb (2 + Z.of_nat (length (snd kv)) + 1 <=? 31)
       (negb (andb (0 <=? fst kv) (fst kv <=? 0xFFFF))).

(** A sequence of AD structures: each is a length byte, a type byte and a
    body, the length byte counting the type and the body. *)
Inductive ad_structures : list Z -> Prop :=
| ad_end : ad_structures []
| ad_element : forall (t : Z) (body rest : list Z),
    ad_structures rest ->
    ad_structures ((Z.of_nat (length body) + 1) :: t :: body ++ rest).

(** Reading the structures back: the (type, body) pairs, or [None] when a
    length byte does not fit what follows. *)
Fixpoint decode_ad (fuel : nat) (l : list Z) : option (list (Z * list Z)) :=
  match fuel with
  | O => None
  | S fuel' =>
      match l with
      | [] => Some []
      | n :: r =>
          if andb (1 <=? n) (n <=? Z.of_nat (length r))
          then match r with
               | t :: r' =>
                   let k := Z.to_nat (n - 1) in
                   option_map (cons (t, firstn k r'))
                              (decode_ad fuel' (skipn k r'))
               | [] => None
               end
          else None
      end
  end.

(** A device whose name has 30 characters. *)
Definition dev_long_name : BLEDevice :=
  {| dev_address := lit "AA:BB:CC:DD:EE:FF";
     dev_name := Some (lit "ABCDEFGHIJKLMNOPQRSTUVWXYZ0123") |}.

(** A process layer that always succeeds. *)
Definition run_ok (cmd : list str) : result (Z * str) := Ok (0, []).

(* ------------------------------------------------------------------ *)
(** ** The built-ins on small inputs *)

Example int_plain : int_base16 latin1_db (lit "180F") = Ok 0x180F.
Proof. reflexivity. Qed.

Example int_prefix_and_blanks : int_base16 latin1_db (lit " 0x1f ") = Ok 31.
Proof. reflexivity. Qed.

Example int_underscore : int_base16 latin1_db (lit "1_f") = Ok 31.
Proof. reflexivity. Qed.

Example int_negative_masked :
  bind (int_base16 latin1_db (lit "-1")) (fun n => Ok (Z.land n 0xFFFF))
  = Ok 0xFFFF.
Proof. reflexivity. Qed.

Example int_empty : int_base16 latin1_db [] = Raise ValueError.
Proof. reflexivity. Qed.

Example int_not_hex : int_base16 latin1_db (lit "zz") = Raise ValueError.
Proof. reflexivity. Qed.

Example int_inner_dash : int_base16 latin1_db (lit "180f-0000") = Raise ValueError.
Proof. reflexivity. Qed.

Example int_double_underscore : int_base16 latin1_db (lit "1__f") = Raise ValueError.
Proof. reflexivity. Qed.

Example split_dashes :
  split_on dash (lit "ab-c--d") = [lit "ab"; lit "c"; []; lit "d"].
Proof. reflexivity. Qed.

Example split_blanks :
  split_ws latin1_db (lit "  ab  cd e ") = [lit "ab"; lit "cd"; lit "e"].
Proof. reflexivity. Qed.

Example format_small : map format_02X [0; 9; 10; 31; 255] =
                       map lit ["00"; "09"; "0A"; "1F"; "FF"]%string.
Proof. reflexivity. Qed.

Example utf8_mixed :
  encode_utf8 [0x41; 0xE9; 0x6D4B; 0x1F600]%N =
  Ok [0x41; 0xC3; 0xA9; 0xE6; 0xB5; 0x8B; 0xF0; 0x9F; 0x98; 0x80].
Proof. reflexivity. Qed.

Example utf8_surrogate : encode_utf8 [0xD800]%N = Raise UnicodeEncodeError.
Proof. reflexivity. Qed.

Example pack_le : pack_H 0x180F = Ok [0x0F; 0x18].
Proof. reflexivity. Qed.

Example pack_too_large : pack_H 0x10000 = Raise StructError.
Proof. reflexivity. Qed.

(** All five blocks at once; the key "zz" and the UUID "zz" leave no trace. *)
Example build_mixed :
  build_ad_data latin1_db dev_test adv_mixed =
  ([0x02; 0x01; 0x06;
    0x05; 0x09; 0x54; 0x65; 0x73; 0x74;
    0x03; 0x03; 0x0F; 0x18;
    0x03; 0x03; 0x0A; 0x18;
    0x04; 0x16; 0xAA; 0xFE; 0x02;
    0x05; 0xFF; 0x4C; 0x00; 0x02; 0x15], None).
Proof. reflexivity. Qed.

(* ------------------------------------------------------------------ *)
(** ** Every entry of [ad_data] is a byte *)

Lemma land_mask_range (z : Z) (n : Z) :
  0 <= n -> 0 <= Z.land z (Z.ones n) < 2 ^ n.
Proof.
  intros Hn. rewrite Z.land_ones by assumption.
  apply Z.mod_pos_bound. apply Z.pow_pos_nonneg; lia.
Qed.

Lemma land_FF_byte (z : Z) : is_byte (Z.land z 0xFF).
Proof. exact (land_mask_range z 8 ltac:(lia)). Qed.

Lemma land_3F_range (z : Z) : 0 <= Z.land z 0x3F < 64.
Proof. exact (land_mask_range z 6 ltac:(lia)). Qed.

Lemma land_FFFF_range (z : Z) : 0 <= Z.land z 0xFFFF <= 0xFFFF.
Proof. pose proof (land_mask_range z 16 ltac:(lia)) as H. change (Z.ones 16) with 0xFFFF in H. lia. Qed.

Lemma lor_byte (a b : Z) : is_byte a -> is_byte b -> is_byte (Z.lor a b).
Proof.
  unfold is_byte. intros [Ha0 Ha] [Hb0 Hb].
  assert (H0 : 0 <= Z.lor a b) by (apply Z.lor_nonneg; split; assumption).
  split; [assumption|].
  destruct (Z.eq_dec (Z.lor a b) 0) as [E|E]; [lia|].
  change 256 with (2 ^ 8). apply Z.log2_lt_pow2; [lia|].
  rewrite Z.log2_lor by assumption.
  destruct (Z.eq_dec a 0) as [->|Na]; destruct (Z.eq_dec b 0) as [->|Nb];
    cbn [Z.log2]; try lia.
  - assert (Z.log2 b < 8) by (apply Z.log2_lt_pow2; lia). lia.
  - assert (Z.log2 a < 8) by (apply Z.log2_lt_pow2; lia). lia.
  - assert (Z.log2 a < 8) by (apply Z.log2_lt_pow2; lia).
    assert (Z.log2 b < 8) by (apply Z.log2_lt_pow2; lia). lia.
Qed.

Lemma shiftr_range (z k lo hi : Z) :
  0 <= k -> lo * 2 ^ k <= z < hi * 2 ^ k -> lo <= Z.shiftr z k < hi.
Proof.
  intros Hk [Hl Hh]. rewrite Z.shiftr_div_pow2 by assumption.
  assert (0 < 2 ^ k) by (apply Z.pow_pos_nonneg; lia).
  split.
  - apply Z.div_le_lower_bound; lia.
  - apply Z.div_lt_upper_bound; lia.
Qed.

Lemma cont_byte (z : Z) : is_byte (Z.lor 0x80 (Z.land z 0x3F)).
Proof.
  apply lor_byte; unfold is_byte; [lia|].
  pose proof (land_3F_range z). lia.
Qed.

#[local] Opaque Z.lor Z.land Z.shiftr.

Ltac split_bytes :=
  repeat apply Forall_cons; try apply Forall_nil; try apply cont_byte.

Lemma utf8_char_bytes (c : N) (b : list Z) :
  utf8_char c = Ok b -> Forall is_byte b /\ b <> [].
Proof.
  unfold utf8_char.
  destruct (Z.ltb_spec (Z.of_N c) 0x80).
  { intros [= <-]. split; [|discriminate].
    split_bytes. unfold is_byte. lia. }
  destruct (Z.ltb_spec (Z.of_N c) 0x800).
  { intros [= <-]. split; [|discriminate].
    split_bytes.
    apply lor_byte; [unfold is_byte; lia|].
    pose proof (shiftr_range (Z.of_N c) 6 0 32). unfold is_byte. lia. }
  destruct (Z.ltb_spec (Z.of_N c) 0x10000).
  { destruct (andb _ _); [discriminate|].
    intros [= <-]. split; [|discriminate].
    split_bytes.
    apply lor_byte; [unfold is_byte; lia|].
    pose proof (shiftr_range (Z.of_N c) 12 0 16). unfold is_byte. lia. }
  destruct (Z.ltb_spec (Z.of_N c) 0x110000); [|discriminate].
  intros [= <-]. split; [|discriminate].
  split_bytes.
  apply lor_byte; [unfold is_byte; lia|].
  pose proof (shiftr_range (Z.of_N c) 18 0 8). unfold is_byte. lia.
Qed.

Lemma encode_utf8_bytes (s : str) (b : list Z) :
  encode_utf8 s = Ok b -> Forall is_byte b /\ (s <> [] -> b <> []).
Proof.
  revert b. induction s as [|c s IH]; intros b.
  - intros [= <-]. split; [constructor|congruence].
  - cbn [encode_utf8]. destruct (utf8_char c) as [b1|e] eqn:E1; [|discriminate].
    cbn [bind]. destruct (encode_utf8 s) as [b2|e] eqn:E2; [|discriminate].
    cbn [bind]. intros [= <-].
    destruct (utf8_char_bytes _ _ E1) as [F1 N1].
    destruct (IH _ eq_refl) as [F2 _].
    split.
    + apply Forall_app; split; assumption.
    + intros _ H. apply app_eq_nil in H. tauto.
Qed.

Lemma pack_H_bytes (v : Z) (b : list Z) :
  pack_H v = Ok b -> Forall is_byte b.
Proof.
  unfold pack_H.
  destruct (Z.leb_spec 0 v), (Z.leb_spec v 0xFFFF); cbn [andb]; try discriminate.
  intros [= <-]. split_bytes; [apply land_FF_byte|].
  pose proof (shiftr_range v 8 0 256). unfold is_byte. lia.
Qed.

#[local] Transparent Z.lor Z.land Z.shiftr.

Lemma ints_of_bytes_bytes (d : bytes) : Forall is_byte (ints_of_bytes d).
Proof.
  unfold ints_of_bytes. apply Forall_map, Forall_forall. intros x _.
  pose proof (Byte.to_N_bounded x). unfold is_byte. lia.
Qed.

(* ------------------------------------------------------------------ *)
(** ** What each block appends *)

Lemma le16_value (v : Z) :
  0 <= v <= 0xFFFF ->
  exists lo hi, le16 v = [lo; hi] /\ is_byte lo /\ is_byte hi /\ v = lo + 256 * hi.
Proof.
  intros Hv. exists (Z.land v 0xFF), (Z.shiftr v 8).
  split; [reflexivity|]. split; [apply land_FF_byte|].
  split; [pose proof (shiftr_range v 8 0 256); unfold is_byte; lia|].
  change 0xFF with (Z.ones 8). rewrite Z.land_ones by lia.
  rewrite Z.shiftr_div_pow2 by lia. change (2 ^ 8) with 256.
  pose proof (Z.div_mod v 256). lia.
Qed.

Lemma pack_H_ok (v : Z) : 0 <= v <= 0xFFFF -> pack_H v = Ok (le16 v).
Proof.
  intros Hv. unfold pack_H.
  destruct (Z.leb_spec 0 v), (Z.leb_spec v 0xFFFF); try lia. reflexivity.
Qed.

Lemma pack_H_masked (n : Z) : pack_H (Z.land n 0xFFFF) = Ok (le16 (Z.land n 0xFFFF)).
Proof. apply pack_H_ok, land_FFFF_range. Qed.

Lemma pack_H_raises (v : Z) : ~ (0 <= v <= 0xFFFF) -> pack_H v = Raise StructError.
Proof.
  intros Hv. unfold pack_H.
  destruct (Z.leb_spec 0 v), (Z.leb_spec v 0xFFFF); try lia; reflexivity.
Qed.

Lemma seq_emit (l : list Z) (b : appender) : seq (emit l) b = (l ++ fst b, snd b).
Proof. reflexivity. Qed.

Lemma seq_ok (a b : appender) :
  snd a = None -> seq a b = (fst a ++ fst b, snd b).
Proof. destruct a as [l [e|]]; [discriminate|reflexivity]. Qed.

Lemma for_each_ok {A} (body : A -> appender) (l : list A) :
  (forall x, snd (body x) = None) ->
  for_each body l = emit (flat_map (fun x => fst (body x)) l).
Proof.
  intros Hb. induction l as [|x l IH]; [reflexivity|].
  cbn [for_each flat_map]. rewrite seq_ok by apply Hb. rewrite IH. reflexivity.
Qed.

Section Elements.

Variable db : unicode_db.

Lemma service_uuid_element_eq (uuid_str : str) :
  service_uuid_element db uuid_str =
  match service_uuid_value db uuid_str with
  | Ok n => emit ([0x03; 0x03] ++ le16 (Z.land n 0xFFFF))
  | Raise _ => emit []
  end.
Proof.
  unfold service_uuid_element, service_uuid_body, service_uuid_value.
  destruct (Nat.eqb (length uuid_str) 36).
  - destruct (int_base16 db (first_group uuid_str)) as [n|e]; [|reflexivity].
    cbn [eval]. rewrite pack_H_masked. reflexivity.
  - destruct (int_base16 db uuid_str) as [n|e]; [|reflexivity].
    cbn [eval]. rewrite pack_H_masked. reflexivity.
Qed.

Lemma service_data_element_eq (uuid_str : str) (data : bytes) :
  service_data_element db (uuid_str, data) =
  match int_base16 db (first_group uuid_str) with
  | Ok n =>
      if 2 + Z.of_nat (length data) + 1 <=? 31
      then emit ([2 + Z.of_nat (length data) + 1; 0x16]
                 ++ le16 (Z.land n 0xFFFF) ++ ints_of_bytes data)
      else emit []
  | Raise _ => emit []
  end.
Proof.
  unfold service_data_element, service_data_body.
  destruct (int_base16 db (first_group uuid_str)) as [n|e]; [|reflexivity].
  cbn [eval]. destruct (_ <=? 31); [|reflexivity].
  rewrite pack_H_masked. reflexivity.
Qed.

Lemma manufacturer_element_eq (company_id : Z) (data : bytes) :
  0 <= company_id <= 0xFFFF ->
  manufacturer_element (company_id, data) =
  if 2 + Z.of_nat (length data) + 1 <=? 31
  then emit ([2 + Z.of_nat (length data) + 1; 0xFF]
             ++ le16 company_id ++ ints_of_bytes data)
  else emit [].
Proof.
  intros Hc. unfold manufacturer_element.
  destruct (_ <=? 31); [|reflexivity].
  rewrite pack_H_ok by assumption. reflexivity.
Qed.

End Elements.

(* ------------------------------------------------------------------ *)
(** ** The encoder does not raise on well-formed observations *)

Lemma utf8_char_scalar (c : N) : scalar c -> exists b, utf8_char c = Ok b.
Proof.
  unfold scalar, utf8_char. intros Hc.
  destruct (Z.ltb_spec (Z.of_N c) 0x80); [eauto|].
  destruct (Z.ltb_spec (Z.of_N c) 0x800); [eauto|].
  destruct (Z.ltb_spec (Z.of_N c) 0x10000).
  - destruct (Z.leb_spec 0xD800 (Z.of_N c)), (Z.leb_spec (Z.of_N c) 0xDFFF);
      cbn [andb]; eauto. lia.
  - destruct (Z.ltb_spec (Z.of_N c) 0x110000); [eauto|lia].
Qed.

Lemma encode_utf8_scalar (s : str) :
  Forall scalar s -> exists b, encode_utf8 s = Ok b.
Proof.
  induction 1 as [|c s Hc _ [bs IH]]; [exists []; reflexivity|].
  destruct (utf8_char_scalar c Hc) as [b Hb].
  exists (b ++ bs). cbn [encode_utf8]. rewrite Hb, IH. reflexivity.
Qed.

(** What the name block appends when the name encodes to [b]. *)
Lemma local_name_encoded (c : N) (s : str) (b : list Z) :
  encode_utf8 (c :: s) = Ok b ->
  local_name (Some (c :: s)) =
  emit ([Z.of_nat (length (firstn 29 b)) + 1; 0x09] ++ firstn 29 b) /\
  firstn 29 b <> [] /\ (length (firstn 29 b) <= 29)%nat.
Proof.
  intros E. destruct (encode_utf8_bytes _ _ E) as [_ Hne].
  assert (Hb : b <> []) by (apply Hne; discriminate).
  assert (Hf : firstn 29 b <> []) by (destruct b; [congruence|discriminate]).
  split; [|split; [assumption|apply firstn_le_length]].
  unfold local_name. rewrite E. cbn [eval].
  destruct (firstn 29 b) as [|x r] eqn:F; [congruence|]. reflexivity.
Qed.

Lemma local_name_ok (n : option str) :
  well_formed_name n -> snd (local_name n) = None.
Proof.
  destruct n as [[|c s]|]; try reflexivity.
  intros H. destruct (encode_utf8_scalar _ H) as [b E].
  destruct (local_name_encoded _ _ _ E) as [E' _]. rewrite E'. reflexivity.
Qed.

Lemma manufacturer_element_ok (kv : Z * bytes) :
  0 <= fst kv <= 0xFFFF -> snd (manufacturer_element kv) = None.
Proof.
  destruct kv as [c d]. intros H. rewrite manufacturer_element_eq by exact H.
  destruct (_ <=? 31); reflexivity.
Qed.

Lemma for_each_manufacturer_ok (md : list (Z * bytes)) :
  company_ids_16bit md -> snd (for_each manufacturer_element md) = None.
Proof.
  induction 1 as [|kv md H _ IH]; [reflexivity|].
  cbn [for_each]. rewrite seq_ok by (apply manufacturer_element_ok, H).
  exact IH.
Qed.

Lemma other_elements_ok (db : unicode_db) (adv : AdvertisementData) :
  company_ids_16bit (manufacturer_data adv) ->
  snd (other_elements db adv) = None.
Proof.
  intros H. unfold other_elements.
  rewrite (for_each_ok (service_uuid_element db)) by reflexivity.
  rewrite (for_each_ok (service_data_element db)) by reflexivity.
  rewrite !seq_emit. apply for_each_manufacturer_ok, H.
Qed.

Lemma build_ad_data_ok (db : unicode_db) (device : BLEDevice)
    (adv : AdvertisementData) :
  well_formed device adv -> snd (build_ad_data db device adv) = None.
Proof.
  intros [Hn Hm]. unfold build_ad_data. rewrite seq_emit.
  rewrite seq_ok by (apply local_name_ok, Hn).
  apply other_elements_ok, Hm.
Qed.

(** The list always starts with the flags, whatever follows and whether or
    not a later block raises. *)
Lemma build_ad_data_flags (db : unicode_db) (device : BLEDevice)
    (adv : AdvertisementData) :
  exists rest, fst (build_ad_data db device adv) = flags ++ rest.
Proof. unfold build_ad_data. rewrite seq_emit. eexists. reflexivity. Qed.

Lemma parse_ok_inv (db : unicode_db) (now : str) (device : BLEDevice)
    (adv : AdvertisementData) (p : packet_info) :
  parse_advertisement_data db now device adv = Ok p ->
  exists ad_data,
    build_ad_data db device adv = (ad_data, None) /\
    p = finish now device adv (limit31 ad_data).
Proof.
  unfold parse_advertisement_data.
  destruct (build_ad_data db device adv) as [ad [e|]]; [discriminate|].
  intros [= <-]. eauto.
Qed.

Lemma parse_total (db : unicode_db) (now : str) (device : BLEDevice)
    (adv : AdvertisementData) :
  well_formed device adv ->
  parse_advertisement_data db now device adv =
  Ok (finish now device adv (limit31 (fst (build_ad_data db device adv)))).
Proof.
  intros H. apply build_ad_data_ok with (db := db) in H.
  unfold parse_advertisement_data.
  destruct (build_ad_data db device adv) as [ad o]. cbn [snd] in H. subst o.
  reflexivity.
Qed.

Lemma limit31_length (l : list Z) : (length (limit31 l) <= 31)%nat.
Proof.
  unfold limit31. destruct (Nat.ltb_spec 31 (length l)); [|assumption].
  rewrite length_firstn. lia.
Qed.

Lemma limit31_prefix (l : list Z) (n : nat) :
  (n <= 31)%nat -> firstn n (limit31 l) = firstn n l.
Proof.
  intros Hn. unfold limit31. destruct (Nat.ltb 31 (length l)); [|reflexivity].
  rewrite firstn_firstn. f_equal. lia.
Qed.

Lemma finish_raw_data (now : str) (device : BLEDevice) (adv : AdvertisementData)
    (ad_data : list Z) :
  raw_data (finish now device adv ad_data) = ad_data.
Proof. destruct ad_data; reflexivity. Qed.

(* ------------------------------------------------------------------ *)
(** ** The payload: flags first, at most 31 bytes *)

(** C1. Whenever the encoder returns a packet, its payload [raw_data] begins
    with the three bytes 02 01 06, which are also the first three bytes of
    the concatenation of the elements; its length is between 3 and 31; when
    the concatenation is longer than 31 bytes the payload is exactly its
    first 31 bytes, and otherwise it is the whole concatenation. *)
Theorem payload_flags_and_limit (db : unicode_db) (now : str)
    (device : BLEDevice) (adv : AdvertisementData) (p : packet_info) :
  parse_advertisement_data db now device adv = Ok p ->
  firstn 3 (raw_data p) = [0x02; 0x01; 0x06] /\
  (3 <= length (raw_data p) <= 31)%nat /\
  exists ad_data,
    build_ad_data db device adv = (ad_data, None) /\
    firstn 3 ad_data = [0x02; 0x01; 0x06] /\
    ((31 < length ad_data)%nat ->
       raw_data p = firstn 31 ad_data /\ length (raw_data p) = 31%nat) /\
    ((length ad_data <= 31)%nat -> raw_data p = ad_data).
Proof.
  intros Hp. destruct (parse_ok_inv _ _ _ _ _ Hp) as (ad & Hb & ->).
  rewrite finish_raw_data.
  destruct (build_ad_data_flags db device adv) as [rest Hr].
  rewrite Hb in Hr. cbn [fst] in Hr. subst ad.
  assert (H3 : firstn 3 (flags ++ rest) = [0x02; 0x01; 0x06]) by reflexivity.
  assert (Hlen : (3 <= length (flags ++ rest))%nat)
    by (rewrite length_app; cbn [flags length]; lia).
  split; [rewrite limit31_prefix by lia; exact H3|].
  split.
  - split; [|apply limit31_length].
    unfold limit31. destruct (Nat.ltb_spec 31 (length (flags ++ rest))).
    + rewrite length_firstn. lia.
    + exact Hlen.
  - exists (flags ++ rest). split; [exact Hb|]. split; [exact H3|].
    unfold limit31. split; intros H.
    + destruct (Nat.ltb_spec 31 (length (flags ++ rest))); [|lia].
      split; [reflexivity|]. rewrite length_firstn. lia.
    + destruct (Nat.ltb_spec 31 (length (flags ++ rest))); [lia|reflexivity].
Qed.

Lemma Forall_firstn {A} (P : A -> Prop) (n : nat) (l : list A) :
  Forall P l -> Forall P (firstn n l).
Proof.
  intros H. revert n. induction H as [|x l Hx _ IH]; intros [|n]; cbn [firstn];
    constructor; auto.
Qed.

Lemma seq_Forall (P : Z -> Prop) (a b : appender) :
  Forall P (fst a) -> Forall P (fst b) -> Forall P (fst (seq a b)).
Proof.
  destruct a as [l [e|]]; cbn [seq fst]; intros Ha Hb; [assumption|].
  apply Forall_app; split; assumption.
Qed.

Lemma for_each_Forall {A} (P : Z -> Prop) (body : A -> appender) (l : list A) :
  (forall x, Forall P (fst (body x))) -> Forall P (fst (for_each body l)).
Proof.
  intros Hb. induction l as [|x l IH]; [constructor|].
  cbn [for_each]. apply seq_Forall; [apply Hb|apply IH].
Qed.

Lemma eval_Forall {A} (P : Z -> Prop) (r : result A) (k : A -> appender) :
  (forall a, r = Ok a -> Forall P (fst (k a))) -> Forall P (fst (eval r k)).
Proof. destruct r as [a|e]; cbn [eval fst]; [auto|constructor]. Qed.

Lemma le16_masked_bytes (n : Z) : Forall is_byte (le16 (Z.land n 0xFFFF)).
Proof.
  pose proof (pack_H_masked n) as H. apply pack_H_bytes in H. exact H.
Qed.

Lemma local_name_bytes (n : option str) : Forall is_byte (fst (local_name n)).
Proof.
  destruct n as [[|c s]|]; try constructor.
  unfold local_name. apply eval_Forall. intros b Hb.
  destruct (encode_utf8_bytes _ _ Hb) as [Fb _].
  destruct (Nat.ltb 0 (length (firstn 29 b))); [|constructor].
  cbn [emit fst app]. pose proof (firstn_le_length 29 b).
  split_bytes; try (unfold is_byte; lia).
  apply Forall_firstn, Fb.
Qed.

Lemma service_uuid_element_bytes (db : unicode_db) (uuid_str : str) :
  Forall is_byte (fst (service_uuid_element db uuid_str)).
Proof.
  rewrite service_uuid_element_eq.
  destruct (service_uuid_value db uuid_str); cbn [emit fst]; [|constructor].
  apply Forall_app. split; [|apply le16_masked_bytes].
  split_bytes; unfold is_byte; lia.
Qed.

Lemma service_data_element_bytes (db : unicode_db) (kv : str * bytes) :
  Forall is_byte (fst (service_data_element db kv)).
Proof.
  destruct kv as [k d]. rewrite service_data_element_eq.
  destruct (int_base16 db (first_group k)); [|constructor].
  destruct (Z.leb_spec (2 + Z.of_nat (length d) + 1) 31); [|constructor].
  cbn [emit fst]. apply Forall_app. split; [split_bytes; unfold is_byte; lia|].
  apply Forall_app. split; [apply le16_masked_bytes|apply ints_of_bytes_bytes].
Qed.

Lemma manufacturer_element_bytes (kv : Z * bytes) :
  Forall is_byte (fst (manufacturer_element kv)).
Proof.
  destruct kv as [c d]. unfold manufacturer_element.
  destruct (Z.leb_spec (2 + Z.of_nat (length d) + 1) 31); [|constructor].
  apply seq_Forall; [cbn [emit fst]; split_bytes; unfold is_byte; lia|].
  apply seq_Forall; [|apply ints_of_bytes_bytes].
  apply eval_Forall. intros b Hb. exact (pack_H_bytes _ _ Hb).
Qed.

Lemma build_ad_data_bytes (db : unicode_db) (device : BLEDevice)
    (adv : AdvertisementData) :
  Forall is_byte (fst (build_ad_data db device adv)).
Proof.
  unfold build_ad_data, other_elements.
  apply seq_Forall; [cbn [emit fst flags]; split_bytes; unfold is_byte; lia|].
  apply seq_Forall; [apply local_name_bytes|].
  apply seq_Forall; [apply for_each_Forall, service_uuid_element_bytes|].
  apply seq_Forall; [apply for_each_Forall, service_data_element_bytes|].
  apply for_each_Forall, manufacturer_element_bytes.
Qed.

Lemma limit31_bytes (l : list Z) : Forall is_byte l -> Forall is_byte (limit31 l).
Proof.
  intros H. unfold limit31. destruct (Nat.ltb 31 (length l)); [|assumption].
  apply Forall_firstn, H.
Qed.

(* ------------------------------------------------------------------ *)
(** ** Formatting a byte, and the words of the command *)

Lemma format_02X_table :
  forallb (fun n => str_eqb (format_02X (Z.of_nat n)) (two_hex (Z.of_nat n)))
          (List.seq 0 256) = true.
Proof. vm_compute. reflexivity. Qed.

Lemma str_eqb_eq (a b : list N) : str_eqb a b = true -> a = b.
Proof. unfold str_eqb. destruct (list_eq_dec N.eq_dec a b); congruence. Qed.

Lemma str_eqb_refl (a : list N) : str_eqb a a = true.
Proof. unfold str_eqb. destruct (list_eq_dec N.eq_dec a a); congruence. Qed.

Lemma format_02X_byte (b : Z) : is_byte b -> format_02X b = two_hex b.
Proof.
  intros Hb. replace b with (Z.of_nat (Z.to_nat b)) by (unfold is_byte in Hb; lia).
  apply str_eqb_eq.
  apply (proj1 (forallb_forall _ _) format_02X_table).
  apply in_seq. unfold is_byte in Hb. lia.
Qed.

Lemma hex_upper_digit_ok (d : Z) : 0 <= d < 16 -> is_hex_upper (hex_upper_digit d).
Proof.
  intros Hd. unfold is_hex_upper, hex_upper_digit.
  destruct (Z.ltb_spec d 10); lia.
Qed.

Lemma two_hex_is_token (b : Z) : is_byte b -> two_hex_token (two_hex b).
Proof.
  intros Hb. unfold is_byte in Hb. eexists _, _. split; [reflexivity|].
  split; apply hex_upper_digit_ok.
  - split; [apply Z.div_pos; lia|apply Z.div_lt_upper_bound; lia].
  - apply Z.mod_pos_bound. lia.
Qed.

Lemma split_ws_aux_word (db : unicode_db) (w cur s : list N) :
  Forall (fun c => isspace db c = false) w ->
  split_ws_aux db cur (w ++ s) = split_ws_aux db (rev w ++ cur) s.
Proof.
  intros Hw. revert cur. induction Hw as [|c w Hc _ IH]; intros cur.
  - reflexivity.
  - cbn [app split_ws_aux rev]. rewrite Hc, IH, <- app_assoc. reflexivity.
Qed.

Lemma split_ws_join (db : unicode_db) (ws : list (list N)) :
  Forall (is_word db) ws -> split_ws db (join blank ws) = ws.
Proof.
  unfold split_ws. induction 1 as [|w ws [Hne Hw] Hws IH]; [reflexivity|].
  assert (Hr : rev w <> []).
  { intros E. apply (f_equal (@rev N)) in E. rewrite rev_involutive in E.
    exact (Hne E). }
  destruct ws as [|w' ws'].
  - cbn [join]. rewrite <- (app_nil_r w) at 1.
    rewrite split_ws_aux_word by assumption. rewrite app_nil_r.
    cbn [split_ws_aux]. destruct (rev w) eqn:E; [congruence|].
    rewrite <- E, rev_involutive. reflexivity.
  - change (join blank (w :: w' :: ws'))
      with (w ++ blank ++ join blank (w' :: ws')).
    rewrite split_ws_aux_word by assumption. rewrite app_nil_r.
    cbn [blank app split_ws_aux].
    change (isspace db 32) with true. cbv iota.
    destruct (rev w) eqn:E; [congruence|].
    rewrite <- E, rev_involutive, IH. reflexivity.
Qed.

Lemma join_app (sep : list N) (ws1 ws2 : list (list N)) :
  ws1 <> [] -> ws2 <> [] ->
  join sep (ws1 ++ ws2) = join sep ws1 ++ sep ++ join sep ws2.
Proof.
  intros H1 H2. induction ws1 as [|w ws1 IH]; [congruence|].
  destruct ws1 as [|w1 ws1].
  - destruct ws2; [congruence|reflexivity].
  - change (join sep ((w :: w1 :: ws1) ++ ws2))
      with (w ++ sep ++ join sep ((w1 :: ws1) ++ ws2)).
    rewrite IH by discriminate.
    change (join sep (w :: w1 :: ws1)) with (w ++ sep ++ join sep (w1 :: ws1)).
    rewrite <- !app_assoc. reflexivity.
Qed.

Lemma hex_is_not_space (db : unicode_db) (c : N) :
  is_hex_upper c -> isspace db c = false.
Proof.
  unfold is_hex_upper, isspace, c_isspace. intros H.
  destruct (N.ltb_spec c 128); [|lia].
  destruct (N.leb_spec 9 c), (N.leb_spec c 13), (N.eqb_spec c 32),
    (N.leb_spec 28 c), (N.leb_spec c 31); cbn; try reflexivity; lia.
Qed.

Lemma two_hex_token_word (db : unicode_db) (w : list N) :
  two_hex_token w -> is_word db w.
Proof.
  intros (a & b & -> & Ha & Hb). split; [discriminate|].
  repeat constructor; apply hex_is_not_space; assumption.
Qed.

Lemma opcode_words_are_words (db : unicode_db) :
  Forall (is_word db) opcode_words.
Proof.
  repeat constructor; try discriminate.
Qed.

Lemma hci_cmd_of_eq (ad_data : list Z) :
  (length ad_data <= 31)%nat -> Forall is_byte ad_data ->
  hci_cmd_of ad_data = hci_prefix ++ join blank (hci_params_of ad_data) /\
  length (hci_params_of ad_data) = 32%nat /\
  Forall two_hex_token (hci_params_of ad_data).
Proof.
  intros Hlen Hb.
  assert (Hpad : Forall is_byte (ad_data ++ repeat 0 (31 - length ad_data))).
  { apply Forall_app. split; [assumption|].
    apply Forall_forall. intros x Hx. apply repeat_spec in Hx. subst x.
    unfold is_byte. lia. }
  split; [|split].
  - unfold hci_cmd_of, hci_params_of. f_equal. f_equal.
    replace (Z.to_nat (31 - Z.of_nat (length ad_data)))
      with (31 - length ad_data)%nat by lia.
    f_equal; [apply format_02X_byte; unfold is_byte; lia|].
    apply map_ext_in. intros x Hx. apply format_02X_byte.
    exact (proj1 (Forall_forall _ _) Hpad x Hx).
  - unfold hci_params_of. cbn [length].
    rewrite length_map, length_app, repeat_length. lia.
  - unfold hci_params_of. constructor.
    + apply two_hex_is_token. unfold is_byte. lia.
    + apply Forall_forall. intros w Hw. apply in_map_iff in Hw.
      destruct Hw as (x & <- & Hx). apply two_hex_is_token.
      exact (proj1 (Forall_forall _ _) Hpad x Hx).
Qed.

Lemma hci_cmd_words (db : unicode_db) (ad_data : list Z) :
  (length ad_data <= 31)%nat -> Forall is_byte ad_data ->
  split_ws db (hci_cmd_of ad_data) = opcode_words ++ hci_params_of ad_data.
Proof.
  intros Hlen Hb. destruct (hci_cmd_of_eq ad_data Hlen Hb) as (-> & _ & Ht).
  change hci_prefix with (join blank opcode_words ++ blank).
  rewrite <- app_assoc, <- join_app by discriminate.
  apply split_ws_join. apply Forall_app. split.
  - apply opcode_words_are_words.
  - revert Ht. apply Forall_impl. apply two_hex_token_word.
Qed.

Lemma after_opcode_words (params : list (list N)) :
  after_opcode (opcode_words ++ params) = params.
Proof. reflexivity. Qed.

(* ------------------------------------------------------------------ *)
(** ** The capture store *)

Lemma ints_eqb_eq (a b : list Z) : ints_eqb a b = true <-> a = b.
Proof. unfold ints_eqb. destruct (list_eq_dec Z.eq_dec a b); split; congruence. Qed.

Lemma str_eqb_iff (a b : list N) : str_eqb a b = true <-> a = b.
Proof. split; [apply str_eqb_eq|intros ->; apply str_eqb_refl]. Qed.

Lemma same_key_iff (packet p : packet_info) :
  same_key packet p = true <->
  address p = address packet /\ raw_data p = raw_data packet.
Proof.
  unfold same_key. rewrite andb_true_iff, str_eqb_iff, ints_eqb_eq. reflexivity.
Qed.

Lemma same_key_trans (a b c : packet_info) :
  same_key a b = true -> same_key a c = true -> same_key b c = true.
Proof.
  rewrite !same_key_iff. intros [H1 H2] [H3 H4]. split; congruence.
Qed.

Lemma update_at_length (i : nat) (f : packet_info -> packet_info)
    (l : list packet_info) :
  length (update_at i f l) = length l.
Proof.
  revert i. induction l as [|p l IH]; intros [|i]; cbn [update_at length];
    auto.
Qed.

Lemma update_at_same (i : nat) (f : packet_info -> packet_info)
    (l : list packet_info) (p : packet_info) :
  nth_error l i = Some p -> nth_error (update_at i f l) i = Some (f p).
Proof.
  revert i. induction l as [|q l IH]; intros [|i]; cbn [update_at nth_error];
    try discriminate.
  - intros [= ->]. reflexivity.
  - apply IH.
Qed.

Lemma update_at_other (i j : nat) (f : packet_info -> packet_info)
    (l : list packet_info) :
  j <> i -> nth_error (update_at i f l) j = nth_error l j.
Proof.
  revert i j. induction l as [|q l IH]; intros [|i] [|j] H;
    cbn [update_at nth_error]; try reflexivity; try congruence.
  apply IH. congruence.
Qed.

(** [find_existing] gives the first position that holds the key. *)
Lemma find_existing_some (packet : packet_info) (s : list packet_info) (i : nat) :
  find_existing packet s = Some i ->
  exists p, nth_error s i = Some p /\ same_key packet p = true /\
    forall j q, (j < i)%nat -> nth_error s j = Some q -> same_key packet q = false.
Proof.
  revert i. induction s as [|p s IH]; intros i; cbn [find_existing];
    [discriminate|].
  destruct (same_key packet p) eqn:K.
  - intros [= <-]. exists p. repeat split; auto. intros j q Hj. lia.
  - destruct (find_existing packet s) as [k|]; [|discriminate].
    intros [= <-]. destruct (IH k eq_refl) as (p' & Hn & Hk & Hfirst).
    exists p'. repeat split; auto.
    intros [|j] q Hj; cbn [nth_error].
    + intros [= <-]. exact K.
    + apply Hfirst. lia.
Qed.

Lemma find_existing_none (packet : packet_info) (s : list packet_info) :
  find_existing packet s = None <->
  forall q, In q s -> same_key packet q = false.
Proof.
  induction s as [|p s IH]; cbn [find_existing].
  - split; [intros _ q []|reflexivity].
  - destruct (same_key packet p) eqn:K.
    + split; [discriminate|]. intros H. rewrite (H p) in K by (left; reflexivity).
      discriminate.
    + destruct (find_existing packet s) as [k|].
      * split; [discriminate|]. intros H. exfalso.
        assert (E : Some k = None)
          by (apply IH; intros q Hq; apply H; right; exact Hq).
        discriminate.
      * split; [|reflexivity]. intros _ q [<-|Hq]; [exact K|].
        apply (proj1 IH eq_refl q Hq).
Qed.

Lemma distinct_keys_nth (s : list packet_info) (i j : nat) (p q : packet_info) :
  distinct_keys s -> nth_error s i = Some p -> nth_error s j = Some q ->
  same_key p q = true -> i = j.
Proof.
  revert i j. induction s as [|x s IH]; intros i j Hd Hi Hj K.
  - destruct i; discriminate.
  - destruct Hd as [Hx Hs].
    destruct i as [|i], j as [|j]; cbn [nth_error] in Hi, Hj.
    + reflexivity.
    + injection Hi as ->. apply nth_error_In in Hj.
      rewrite (Hx q Hj) in K. discriminate.
    + injection Hj as ->. apply nth_error_In in Hi.
      assert (K' : same_key q p = true).
      { apply same_key_iff. apply same_key_iff in K. destruct K. split; congruence. }
      rewrite (Hx p Hi) in K'. discriminate.
    + f_equal. eapply IH; eauto.
Qed.

(** With distinct keys, the packet that holds the key is the one found. *)
Lemma find_existing_distinct (packet : packet_info) (s : list packet_info)
    (i : nat) (p : packet_info) :
  distinct_keys s -> nth_error s i = Some p -> same_key packet p = true ->
  find_existing packet s = Some i.
Proof.
  intros Hd Hn K. destruct (find_existing packet s) as [k|] eqn:F.
  - destruct (find_existing_some _ _ _ F) as (p' & Hn' & K' & _).
    f_equal. eapply distinct_keys_nth; eauto.
    eapply same_key_trans; eauto.
  - rewrite find_existing_none in F. apply nth_error_In in Hn.
    rewrite (F p Hn) in K. discriminate.
Qed.

Lemma same_key_sym (a b : packet_info) : same_key a b = same_key b a.
Proof.
  destruct (same_key a b) eqn:K1, (same_key b a) eqn:K2; try reflexivity.
  - apply same_key_iff in K1. destruct K1 as [H1 H2].
    assert (K : same_key b a = true) by (apply same_key_iff; split; congruence).
    congruence.
  - apply same_key_iff in K2. destruct K2 as [H1 H2].
    assert (K : same_key a b = true) by (apply same_key_iff; split; congruence).
    congruence.
Qed.

Lemma same_key_refresh (packet p q : packet_info) :
  same_key (refresh packet p) q = same_key p q /\
  same_key q (refresh packet p) = same_key q p.
Proof. split; reflexivity. Qed.

Lemma distinct_keys_append (s : list packet_info) (packet : packet_info) :
  distinct_keys s ->
  (forall q, In q s -> same_key packet q = false) ->
  distinct_keys (s ++ [packet]).
Proof.
  induction s as [|p s IH]; intros Hd Hn.
  - cbn. split; [intros q []|exact I].
  - destruct Hd as [Hp Hs]. cbn [app distinct_keys]. split.
    + intros q Hq. apply in_app_or in Hq. destruct Hq as [Hq|[<-|[]]].
      * apply Hp, Hq.
      * rewrite same_key_sym. apply Hn. left. reflexivity.
    + apply IH; [exact Hs|]. intros q Hq. apply Hn. right. exact Hq.
Qed.

Lemma in_update_at (i : nat) (f : packet_info -> packet_info)
    (l : list packet_info) (q : packet_info) :
  In q (update_at i f l) -> In q l \/ exists p, In p l /\ q = f p.
Proof.
  revert i. induction l as [|x l IH]; intros i; [destruct i; intros []|].
  destruct i as [|i]; cbn [update_at].
  - intros [<-|H]; [right; exists x; split; [left|]; reflexivity|].
    left. right. exact H.
  - intros [<-|H]; [left; left; reflexivity|].
    destruct (IH i H) as [H'|(p & Hp & ->)]; [left; right; exact H'|].
    right. exists p. split; [right; exact Hp|reflexivity].
Qed.

Lemma distinct_keys_refresh (packet : packet_info) (i : nat)
    (s : list packet_info) :
  distinct_keys s -> distinct_keys (update_at i (refresh packet) s).
Proof.
  revert i. induction s as [|p s IH]; intros i Hd; [destruct i; exact I|].
  destruct Hd as [Hp Hs]. destruct i as [|i]; cbn [update_at distinct_keys].
  - split; [|exact Hs]. intros q Hq.
    rewrite (proj1 (same_key_refresh packet p q)). apply Hp, Hq.
  - split; [|apply IH, Hs]. intros q Hq.
    destruct (in_update_at _ _ _ _ Hq) as [H|(p' & Hp' & ->)].
    + apply Hp, H.
    + rewrite (proj2 (same_key_refresh packet p' p)). apply Hp, Hp'.
Qed.

Lemma detection_callback_inv (db : unicode_db)
    (tn ta : option (list (list N))) (now : list N) (device : BLEDevice)
    (adv : AdvertisementData) (s s' : list packet_info) :
  detection_callback db tn ta now device adv s = Ok s' ->
  distinct_keys s /\ Forall (encoded db) s ->
  distinct_keys s' /\ Forall (encoded db) s'.
Proof.
  unfold detection_callback. intros H [Hd He].
  destruct (filtered_out tn ta device); [injection H as <-; auto|].
  destruct (parse_advertisement_data db now device adv) as [packet|e] eqn:P;
    [|discriminate].
  cbn [bind] in H.
  destruct (find_existing packet s) as [i|] eqn:F; injection H as <-.
  - split; [apply distinct_keys_refresh, Hd|].
    apply Forall_forall. intros q Hq.
    destruct (in_update_at _ _ _ _ Hq) as [Hq'|(p & Hp & ->)].
    + exact (proj1 (Forall_forall _ _) He q Hq').
    + destruct (proj1 (Forall_forall _ _) He p Hp)
        as (n0 & d0 & a0 & q0 & Hq0 & E).
      exists n0, d0, a0, q0. split; [exact Hq0|exact E].
  - split.
    + apply distinct_keys_append; [exact Hd|].
      apply find_existing_none, F.
    + apply Forall_app. split; [exact He|]. constructor; [|constructor].
      exists now, device, adv, packet. auto.
Qed.

Lemma reachable_inv (db : unicode_db) (s : list packet_info) :
  reachable db s -> distinct_keys s /\ Forall (encoded db) s.
Proof.
  induction 1 as [|tn ta now device adv s s' _ IH H].
  - split; [exact I|constructor].
  - eapply detection_callback_inv; eauto.
Qed.

(* ------------------------------------------------------------------ *)
(** ** Where the name element shows in a payload *)

Lemma tagged_app (a b : list Z) : tagged a -> tagged b -> tagged (a ++ b).
Proof.
  intros [->|(x & t & r & -> & Ht)] Hb; [exact Hb|].
  right. exists x, t, (r ++ b). split; [reflexivity|exact Ht].
Qed.

Lemma seq_tagged (a b : appender) :
  tagged (fst a) -> tagged (fst b) -> tagged (fst (seq a b)).
Proof.
  destruct a as [l [e|]]; cbn [seq fst]; intros Ha Hb; [exact Ha|].
  apply tagged_app; assumption.
Qed.

Lemma for_each_tagged {A} (body : A -> appender) (l : list A) :
  (forall x, tagged (fst (body x))) -> tagged (fst (for_each body l)).
Proof.
  intros Hb. induction l as [|x l IH]; [left; reflexivity|].
  cbn [for_each]. apply seq_tagged; [apply Hb|apply IH].
Qed.

Lemma service_uuid_element_tagged (db : unicode_db) (uuid_str : list N) :
  tagged (fst (service_uuid_element db uuid_str)).
Proof.
  rewrite service_uuid_element_eq.
  destruct (service_uuid_value db uuid_str); [|left; reflexivity].
  right. eexists _, _, _. split; [reflexivity|discriminate].
Qed.

Lemma service_data_element_tagged (db : unicode_db) (kv : list N * list byte) :
  tagged (fst (service_data_element db kv)).
Proof.
  destruct kv as [k d]. rewrite service_data_element_eq.
  destruct (int_base16 db (first_group k)); [|left; reflexivity].
  destruct (_ <=? 31); [|left; reflexivity].
  right. eexists _, _, _. split; [reflexivity|discriminate].
Qed.

Lemma manufacturer_element_tagged (kv : Z * list byte) :
  tagged (fst (manufacturer_element kv)).
Proof.
  destruct kv as [c d]. unfold manufacturer_element.
  destruct (_ <=? 31); [|left; reflexivity].
  right. rewrite seq_emit. eexists _, _, _. split; [reflexivity|discriminate].
Qed.

Lemma other_elements_tagged (db : unicode_db) (adv : AdvertisementData) :
  tagged (fst (other_elements db adv)).
Proof.
  unfold other_elements.
  apply seq_tagged; [apply for_each_tagged, service_uuid_element_tagged|].
  apply seq_tagged; [apply for_each_tagged, service_data_element_tagged|].
  apply for_each_tagged, manufacturer_element_tagged.
Qed.

Lemma limit31_nth (l : list Z) (i : nat) :
  (i < 31)%nat -> nth_error (limit31 l) i = nth_error l i.
Proof.
  intros Hi. unfold limit31. destruct (Nat.ltb 31 (length l)); [|reflexivity].
  rewrite nth_error_firstn. destruct (Nat.ltb_spec i 31); [reflexivity|lia].
Qed.

(** In a packet of the encoder, the byte at position 4 is 0x09 exactly when
    the device had a name that is not empty; a packet without it is named
    'Unknown'. *)
Lemma parse_name_tag (db : unicode_db) (now : list N) (device : BLEDevice)
    (adv : AdvertisementData) (p : packet_info) :
  parse_advertisement_data db now device adv = Ok p ->
  ((dev_name device = None \/ dev_name device = Some []) /\
   name p = Unknown /\ nth_error (raw_data p) 4 <> Some 0x09) \/
  (exists c s, dev_name device = Some (c :: s) /\
   name p = c :: s /\ nth_error (raw_data p) 4 = Some 0x09).
Proof.
  intros Hp. destruct (parse_ok_inv _ _ _ _ _ Hp) as (ad & Hb & ->).
  rewrite finish_raw_data, limit31_nth by lia.
  assert (Hname : name (finish now device adv (limit31 ad))
                  = name_or_unknown (dev_name device))
    by (destruct (limit31 ad); reflexivity).
  rewrite Hname. unfold build_ad_data in Hb.
  pose proof (other_elements_tagged db adv) as Ht.
  destruct (dev_name device) as [[|c s]|] eqn:En.
  - left. split; [auto|]. split; [reflexivity|].
    rewrite !seq_emit in Hb. injection Hb as <- _. cbn [app fst flags].
    destruct Ht as [->|(a & t & r & -> & Hne)]; cbn; congruence.
  - right. exists c, s. split; [reflexivity|]. split; [reflexivity|].
    rewrite seq_emit in Hb.
    destruct (encode_utf8 (c :: s)) as [b|e] eqn:E.
    + destruct (local_name_encoded _ _ _ E) as (El & _ & _).
      rewrite El in Hb. rewrite seq_emit in Hb. injection Hb as <- _.
      reflexivity.
    + unfold local_name in Hb. rewrite E in Hb. discriminate.
  - left. split; [auto|]. split; [reflexivity|].
    rewrite !seq_emit in Hb. injection Hb as <- _. cbn [app fst flags].
    destruct Ht as [->|(a & t & r & -> & Hne)]; cbn; congruence.
Qed.

(* ------------------------------------------------------------------ *)
(** ** C2: a repeated observation *)

Lemma finish_fields (now : list N) (device : BLEDevice) (adv : AdvertisementData)
    (ad_data : list Z) :
  let p := finish now device adv ad_data in
  timestamp p = now /\ address p = dev_address device /\
  name p = name_or_unknown (dev_name device) /\ rssi p = adv_rssi adv /\
  (ad_data <> [] -> hci_cmd p = hci_cmd_of ad_data).
Proof. destruct ad_data; cbn; repeat split; congruence. Qed.

Lemma parse_fields (db : unicode_db) (now : list N) (device : BLEDevice)
    (adv : AdvertisementData) (p : packet_info) :
  parse_advertisement_data db now device adv = Ok p ->
  timestamp p = now /\ address p = dev_address device /\
  name p = name_or_unknown (dev_name device) /\ rssi p = adv_rssi adv /\
  hci_cmd p = hci_cmd_of (raw_data p) /\
  (length (raw_data p) <= 31)%nat /\ Forall is_byte (raw_data p) /\
  raw_data p <> [].
Proof.
  intros Hp.
  destruct (parse_ok_inv _ _ _ _ _ Hp) as (ad & Hb & ->).
  rewrite finish_raw_data in *.
  destruct (build_ad_data_flags db device adv) as [rest Hr].
  rewrite Hb in Hr. cbn [fst] in Hr.
  assert (Hne : limit31 ad <> []).
  { intros E. apply (f_equal (firstn 3)) in E.
    rewrite limit31_prefix, Hr in E by lia. discriminate. }
  destruct (finish_fields now device adv (limit31 ad)) as (A & B & C & D & E).
  pose proof (limit31_length ad).
  repeat split; auto.
  apply limit31_bytes. pose proof (build_ad_data_bytes db device adv) as Hby.
  rewrite Hb in Hby. exact Hby.
Qed.

(** C2. On a store with distinct keys, an observation whose address and
    payload equal those of the packet stored at position [i] leaves the
    length of the store and every other position as they were, and at
    position [i] keeps [address], [name], [raw_data] and [hci_cmd]; when the
    filters let the observation through, [rssi] and [timestamp] there become
    those of the observation, and when they do not, the store is as it was.
    When no stored packet has the key and the filters let the observation
    through, the new packet, which carries the command generated from its
    payload, is appended at the end. *)
Theorem repeated_observation_updates_in_place (db : unicode_db)
    (tn ta : option (list (list N))) (now : list N) (device : BLEDevice)
    (adv : AdvertisementData) (store : list packet_info) (packet : packet_info) :
  distinct_keys store ->
  parse_advertisement_data db now device adv = Ok packet ->
  (forall i existing,
     nth_error store i = Some existing ->
     address existing = address packet ->
     raw_data existing = raw_data packet ->
     exists store' updated,
       detection_callback db tn ta now device adv store = Ok store' /\
       length store' = length store /\
       nth_error store' i = Some updated /\
       (forall j, j <> i -> nth_error store' j = nth_error store j) /\
       address updated = address existing /\ name updated = name existing /\
       raw_data updated = raw_data existing /\
       hci_cmd updated = hci_cmd existing /\
       (filtered_out tn ta device = false ->
          rssi updated = adv_rssi adv /\ timestamp updated = now) /\
       (filtered_out tn ta device = true -> store' = store)) /\
  (filtered_out tn ta device = false ->
   (forall q, In q store ->
      ~ (address q = address packet /\ raw_data q = raw_data packet)) ->
   detection_callback db tn ta now device adv store = Ok (store ++ [packet]) /\
   hci_cmd packet = hci_cmd_of (raw_data packet)).
Proof.
  intros Hd Hp.
  destruct (parse_fields _ _ _ _ _ Hp) as (Ht & _ & _ & Hr & Hc & _).
  unfold detection_callback. split.
  - intros i existing Hn Ha Hraw.
    destruct (filtered_out tn ta device) eqn:Hf.
    + exists store, existing. repeat split; auto; discriminate.
    + rewrite Hp. cbn [bind].
      assert (K : same_key packet existing = true)
        by (apply same_key_iff; split; assumption).
      rewrite (find_existing_distinct _ _ _ _ Hd Hn K).
      exists (update_at i (refresh packet) store), (refresh packet existing).
      split; [reflexivity|]. split; [apply update_at_length|].
      split; [apply update_at_same, Hn|].
      split; [intros j Hj; apply update_at_other, Hj|].
      cbn [refresh rssi timestamp address name raw_data hci_cmd].
      repeat split; auto; discriminate.
  - intros Hf Hnew. rewrite Hf, Hp. cbn [bind]. split; [|exact Hc].
    assert (F : find_existing packet store = None).
    { apply find_existing_none. intros q Hq.
      destruct (same_key packet q) eqn:K; [|reflexivity].
      apply same_key_iff in K. destruct (Hnew q Hq K). }
    rewrite F. reflexivity.
Qed.

(* ------------------------------------------------------------------ *)
(** ** C3: no exception, unparsable UUIDs are skipped *)

Lemma for_each_skip {A} (body : A -> appender) (l1 l2 : list A) (x : A) :
  (forall y, snd (body y) = None) -> body x = emit [] ->
  for_each body (l1 ++ x :: l2) = for_each body (l1 ++ l2).
Proof.
  intros Hb Hx. rewrite !for_each_ok by assumption.
  rewrite !flat_map_app. cbn [flat_map]. rewrite Hx. reflexivity.
Qed.

Lemma bad_service_uuid_skipped (db : unicode_db) (adv : AdvertisementData)
    (l1 l2 : list (list N)) (bad : list N) :
  service_uuids adv = l1 ++ bad :: l2 ->
  (exists e, service_uuid_value db bad = Raise e) ->
  other_elements db adv = other_elements db (with_service_uuids adv (l1 ++ l2)).
Proof.
  intros Hu [e He]. unfold other_elements. cbn [with_service_uuids service_uuids
    service_data manufacturer_data]. rewrite Hu. f_equal.
  apply for_each_skip; [reflexivity|].
  rewrite service_uuid_element_eq, He. reflexivity.
Qed.

Lemma bad_service_data_skipped (db : unicode_db) (adv : AdvertisementData)
    (l1 l2 : list (list N * list byte)) (k : list N) (d : list byte) :
  service_data adv = l1 ++ (k, d) :: l2 ->
  (exists e, int_base16 db (first_group k) = Raise e) ->
  other_elements db adv = other_elements db (with_service_data adv (l1 ++ l2)).
Proof.
  intros Hs [e He]. unfold other_elements. cbn [with_service_data service_uuids
    service_data manufacturer_data]. rewrite Hs. f_equal. f_equal.
  apply for_each_skip; [reflexivity|].
  rewrite service_data_element_eq, He. reflexivity.
Qed.

Lemma parse_same_elements (db : unicode_db) (now : list N) (device : BLEDevice)
    (adv adv' : AdvertisementData) :
  adv_rssi adv = adv_rssi adv' ->
  other_elements db adv = other_elements db adv' ->
  parse_advertisement_data db now device adv =
  parse_advertisement_data db now device adv'.
Proof.
  intros Hr He. unfold parse_advertisement_data, build_ad_data. rewrite He.
  destruct (seq _ _) as [ad [e|]]; [reflexivity|].
  unfold finish. rewrite Hr. reflexivity.
Qed.

(** C3. On an observation whose name is text of Unicode scalar values and
    whose company identifiers are 16-bit numbers, the encoder returns a
    packet and raises nothing. A service UUID that does not parse, and a
    service-data key that does not parse, change nothing: the result is that
    of the observation without the entry, so the entries before and after it
    are encoded as usual. *)
Theorem encoder_returns_and_skips_bad_uuids (db : unicode_db) (now : list N)
    (device : BLEDevice) (adv : AdvertisementData) :
  well_formed device adv ->
  (exists p, parse_advertisement_data db now device adv = Ok p) /\
  (forall l1 bad l2,
     service_uuids adv = l1 ++ bad :: l2 ->
     (exists e, service_uuid_value db bad = Raise e) ->
     service_uuid_element db bad = emit [] /\
     parse_advertisement_data db now device adv =
     parse_advertisement_data db now device (with_service_uuids adv (l1 ++ l2))) /\
  (forall l1 k d l2,
     service_data adv = l1 ++ (k, d) :: l2 ->
     (exists e, int_base16 db (first_group k) = Raise e) ->
     service_data_element db (k, d) = emit [] /\
     parse_advertisement_data db now device adv =
     parse_advertisement_data db now device (with_service_data adv (l1 ++ l2))).
Proof.
  intros Hwf. split; [|split].
  - rewrite (parse_total db now device adv Hwf). eauto.
  - intros l1 bad l2 Hu Hbad. split.
    + destruct Hbad as [e He]. rewrite service_uuid_element_eq, He. reflexivity.
    + apply parse_same_elements; [reflexivity|].
      eapply bad_service_uuid_skipped; eauto.
  - intros l1 k d l2 Hs Hbad. split.
    + destruct Hbad as [e He]. rewrite service_data_element_eq, He. reflexivity.
    + apply parse_same_elements; [reflexivity|].
      eapply bad_service_data_skipped; eauto.
Qed.

(* ------------------------------------------------------------------ *)
(** ** C4 and C5: the command *)

(** C4, with 32 in place of 33. For every packet the encoder returns, the words of its
    command are the invocation up to the opcode pair 0x08 0x0008 followed by
    exactly 32 tokens of two upper-case hexadecimal digits: one for the
    length and 31 for the padded payload, whatever the payload's length. *)
Theorem command_has_32_tokens (db : unicode_db) (now : list N)
    (device : BLEDevice) (adv : AdvertisementData) (p : packet_info) :
  parse_advertisement_data db now device adv = Ok p ->
  split_ws db (hci_cmd p) = opcode_words ++ hci_params_of (raw_data p) /\
  after_opcode (split_ws db (hci_cmd p)) = hci_params_of (raw_data p) /\
  length (after_opcode (split_ws db (hci_cmd p))) = 32%nat /\
  length (tl (after_opcode (split_ws db (hci_cmd p)))) = 31%nat /\
  Forall two_hex_token (after_opcode (split_ws db (hci_cmd p))).
Proof.
  intros Hp.
  destruct (parse_fields _ _ _ _ _ Hp) as (_ & _ & _ & _ & Hc & Hlen & Hby & _).
  destruct (hci_cmd_of_eq _ Hlen Hby) as (_ & H32 & Htok).
  rewrite Hc, (hci_cmd_words db _ Hlen Hby), after_opcode_words.
  repeat split; auto.
Qed.

Lemma parse_test (db : unicode_db) (now : list N) :
  parse_advertisement_data db now dev_test adv_empty = Ok (pkt_test now).
Proof. reflexivity. Qed.

(** C5. The command block leaves the command empty exactly when the payload
    is empty. For a payload that is not empty (of at most 31 bytes), the
    command is the fixed prefix with the opcode pair 0x08 0x0008, then the
    length and the payload padded with zeros to 31 bytes, each as two
    upper-case hexadecimal digits, joined by single blanks. For the
    observation named "Test" with no other data the payload is
    02 01 06 05 09 54 65 73 74 and the command ends with 09, these nine
    bytes and 22 zero bytes. *)
Theorem command_generation (now : list N) (device : BLEDevice)
    (adv : AdvertisementData) (ad_data : list Z) :
  (length ad_data <= 31)%nat -> Forall is_byte ad_data ->
  let padded := ad_data ++ repeat 0 (31 - length ad_data) in
  let params := two_hex (Z.of_nat (length ad_data)) :: map two_hex padded in
  (hci_cmd (finish now device adv ad_data) = [] <-> ad_data = []) /\
  (ad_data <> [] ->
     hci_cmd (finish now device adv ad_data) =
       lit "sudo hcitool -i hci0 cmd 0x08 0x0008 " ++ join (lit " ") params /\
     length padded = 31%nat /\ firstn (length ad_data) padded = ad_data /\
     Forall two_hex_token params) /\
  (forall db, parse_advertisement_data db now dev_test adv_empty =
              Ok (pkt_test now)).
Proof.
  intros Hlen Hby padded params. split; [|split].
  - destruct ad_data as [|x l]; [split; reflexivity|].
    split; [|discriminate]. cbn [finish hci_cmd]. unfold hci_cmd_of.
    discriminate.
  - intros Hne. destruct (finish_fields now device adv ad_data) as (_ & _ & _ & _ & Hc).
    rewrite (Hc Hne).
    destruct (hci_cmd_of_eq ad_data Hlen Hby) as (E & H32 & Htok).
    split; [exact E|]. split; [|split; [|exact Htok]].
    + unfold padded. rewrite length_app, repeat_length. lia.
    + unfold padded. rewrite firstn_app, Nat.sub_diag, firstn_all.
      cbn [firstn]. apply app_nil_r.
  - intros db. apply parse_test.
Qed.

(* ------------------------------------------------------------------ *)
(** ** C6: service UUIDs *)

Lemma first_group_cons (c : N) (s : list N) :
  first_group (c :: s) = if N.eqb c dash then [] else c :: first_group s.
Proof.
  unfold first_group. cbn [split_on]. destruct (N.eqb c dash); [reflexivity|].
  destruct (split_on dash s); reflexivity.
Qed.

(** [first_group] is the text before the first dash. *)
Lemma first_group_prefix (s : list N) :
  exists rest, s = first_group s ++ rest /\ ~ In dash (first_group s) /\
               (rest = [] \/ exists r, rest = dash :: r).
Proof.
  induction s as [|c s (rest & E & Hn & Hr)].
  - exists []. cbn. auto.
  - rewrite first_group_cons. destruct (N.eqb_spec c dash) as [->|Hc].
    + exists (dash :: s). cbn. split; [reflexivity|]. split; [tauto|eauto].
    + exists rest. split; [cbn; congruence|]. split; [|exact Hr].
      intros [H|H]; [congruence|exact (Hn H)].
Qed.

Lemma first_group_no_dash (s : list N) : ~ In dash s -> first_group s = s.
Proof.
  induction s as [|c s IH]; [reflexivity|]. intros H.
  rewrite first_group_cons. destruct (N.eqb_spec c dash) as [->|Hc].
  - destruct H. left. reflexivity.
  - rewrite IH; [reflexivity|]. intros H'. apply H. right. exact H'.
Qed.

Lemma hex_digit_ascii (c : N) :
  is_hex_digit c ->
  (c < 128)%N /\ c_isspace c = false /\ c <> 43%N /\ c <> 45%N /\
  c <> 95%N /\ c <> 120%N /\ c <> 88%N.
Proof.
  intros [d Hd]. unfold digit_value in Hd. unfold c_isspace.
  destruct (N.leb_spec 48 c), (N.leb_spec c 57), (N.leb_spec 97 c),
    (N.leb_spec c 102), (N.leb_spec 65 c), (N.leb_spec c 70);
    cbn [andb] in Hd; try discriminate;
    destruct (N.leb_spec 9 c), (N.leb_spec c 13), (N.eqb_spec c 32);
    cbn [andb orb]; repeat split; try lia.
Qed.

Lemma scan_hex_digits (s : list N) (acc : Z) :
  Forall is_hex_digit s ->
  scan_digits false acc s =
  Some (fold_left (fun a c =>
                     match digit_value c with
                     | Some d => a * 16 + d
                     | None => a
                     end) s acc, []).
Proof.
  intros H. revert acc. induction H as [|c s Hc _ IH]; intros acc; [reflexivity|].
  cbn [scan_digits fold_left].
  destruct (hex_digit_ascii c Hc) as (_ & _ & _ & _ & Hu & _).
  destruct (N.eqb_spec c underscore); [contradiction|].
  destruct Hc as [d Hd]. rewrite Hd. apply IH.
Qed.

(** Case analysis on the leading bits of a code point, as far as the
    matches on literal characters look. *)
Ltac by_bits c :=
  let p := fresh "p" in
  destruct c as [|p];
  [ try reflexivity; try congruence
  | repeat (destruct p as [p|p|]; try reflexivity; try congruence) ].

(** [int(s, 16)] on a text of hexadecimal digits is its value. *)
Lemma int_base16_hex (db : unicode_db) (s : list N) :
  s <> [] -> Forall is_hex_digit s -> int_base16 db s = Ok (hex_value s).
Proof.
  intros Hne Hs. unfold int_base16, to_ascii_digits.
  assert (Ha : is_ascii s = true).
  { apply forallb_forall. intros c Hc. apply N.ltb_lt.
    apply (hex_digit_ascii c). exact (proj1 (Forall_forall _ _) Hs c Hc). }
  rewrite Ha. destruct s as [|c s]; [congruence|].
  inversion Hs as [|c' s' Hc Hs']; subst.
  destruct (hex_digit_ascii c Hc) as (_ & Hsp & Hplus & Hminus & Hu & _).
  cbn [skip_spaces]. rewrite Hsp.
  assert (E1 : strip_sign (c :: s) = (false, c :: s)).
  { unfold strip_sign. by_bits c. }
  rewrite E1.
  assert (E2 : strip_prefix (c :: s) = c :: s).
  { unfold strip_prefix. destruct s as [|x r].
    - by_bits c.
    - inversion Hs' as [|x' r' Hx _]; subst.
      destruct (hex_digit_ascii x Hx) as (_ & _ & _ & _ & _ & Hx1 & Hx2).
      destruct (N.eqb_spec x 120); [contradiction|].
      destruct (N.eqb_spec x 88); [contradiction|]. cbn [orb].
      by_bits c. }
  rewrite E2.
  rewrite (scan_hex_digits (c :: s) 0 Hs).
  by_bits c.
Qed.

Lemma dashed_form_36_length (s : list N) :
  dashed_form_36 s = true -> length s = 36%nat.
Proof.
  unfold dashed_form_36. intros H. apply andb_true_iff in H.
  apply Nat.eqb_eq, H.
Qed.

(** Where the test on the length agrees with the test on the form. *)
Lemma service_uuid_value_spec (db : unicode_db) (s : list N) :
  dashed_form_36 s = true \/ length s <> 36%nat \/ ~ In dash s ->
  service_uuid_value db s = spec_service_uuid_value db s.
Proof.
  unfold service_uuid_value, spec_service_uuid_value.
  intros [H|[H|H]].
  - rewrite H, (dashed_form_36_length s H). reflexivity.
  - destruct (dashed_form_36 s) eqn:D;
      [apply dashed_form_36_length in D; contradiction|].
    destruct (Nat.eqb_spec (length s) 36); [contradiction|reflexivity].
  - rewrite (first_group_no_dash s H).
    destruct (Nat.eqb (length s) 36), (dashed_form_36 s); reflexivity.
Qed.

(** C6, with the test the code makes. A service UUID string of exactly 36
    characters is parsed from its first dash-delimited group, whether or not
    it is in dashed form, and any other from the whole string, as a
    hexadecimal number masked to 16 bits; this is the parse the
    specification words for every string that is in dashed form, or has
    another length, or has no dash. A string that parses contributes the
    element 03 03 and the two bytes of the masked number, low byte first, and
    one that does not parse contributes nothing. Every string of the list
    gives its own element. The string 0000180f-0000-1000-8000-00805f9b34fb
    gives 03 03 0F 18. *)
Theorem service_uuid_parsing (db : unicode_db) (uuid_str : list N) :
  service_uuid_element db uuid_str =
    match (if Nat.eqb (length uuid_str) 36
           then int_base16 db (first_group uuid_str)
           else int_base16 db uuid_str) with
    | Ok n => emit ([0x03; 0x03] ++ le16 (Z.land n 0xFFFF))
    | Raise _ => emit []
    end /\
  (exists rest, uuid_str = first_group uuid_str ++ rest /\
                ~ In dash (first_group uuid_str) /\
                (rest = [] \/ exists r, rest = dash :: r)) /\
  (~ In dash uuid_str -> first_group uuid_str = uuid_str) /\
  (dashed_form_36 uuid_str = true \/ length uuid_str <> 36%nat \/
   ~ In dash uuid_str ->
   service_uuid_value db uuid_str = spec_service_uuid_value db uuid_str) /\
  (forall s, s <> [] -> Forall is_hex_digit s ->
             int_base16 db s = Ok (hex_value s)) /\
  (forall n, exists lo hi,
      le16 (Z.land n 0xFFFF) = [lo; hi] /\ is_byte lo /\ is_byte hi /\
      lo + 256 * hi = n mod 65536) /\
  (forall uuids,
      for_each (service_uuid_element db) uuids =
      emit (flat_map (fun u => fst (service_uuid_element db u)) uuids)) /\
  first_group battery_uuid = lit "0000180f" /\
  service_uuid_value db battery_uuid = Ok 0x180F /\
  service_uuid_element db battery_uuid = emit [0x03; 0x03; 0x0F; 0x18].
Proof.
  split; [exact (service_uuid_element_eq db uuid_str)|].
  split; [apply first_group_prefix|].
  split; [apply first_group_no_dash|].
  split; [apply service_uuid_value_spec|].
  split; [apply int_base16_hex|].
  split.
  { intros n. destruct (le16_value (Z.land n 0xFFFF) (land_FFFF_range n))
      as (lo & hi & E & Hlo & Hhi & Hv).
    exists lo, hi. repeat split; try assumption; try apply Hlo; try apply Hhi.
    rewrite <- Hv. change 0xFFFF with (Z.ones 16).
    rewrite Z.land_ones by lia. reflexivity. }
  split; [intros uuids; apply for_each_ok; reflexivity|].
  repeat split; reflexivity.
Qed.

(* ------------------------------------------------------------------ *)
(** ** C7: service data and manufacturer data *)

(** C7, for keys that parse. For a service-data pair whose key parses, and for a
    manufacturer-data pair with a 16-bit company identifier, the element is
    appended exactly when 2 + len(data) + 1 is at most 31, and otherwise
    nothing of the entry is appended; the element is the length byte, the
    type 0x16 or 0xFF, the two bytes of the UUID or company identifier, low
    byte first, and the data. A service-data pair whose key does not parse
    appends nothing, whatever its length. *)
Theorem data_elements (db : unicode_db) (uuid_str bad_key : list N) (n : Z)
    (company_id : Z) (data : list byte) :
  int_base16 db (first_group uuid_str) = Ok n ->
  (exists e, int_base16 db (first_group bad_key) = Raise e) ->
  0 <= company_id <= 0xFFFF ->
  let len := 2 + Z.of_nat (length data) + 1 in
  service_data_element db (uuid_str, data) =
    (if len <=? 31
     then emit ([len; 0x16] ++ le16 (Z.land n 0xFFFF) ++ ints_of_bytes data)
     else emit []) /\
  manufacturer_element (company_id, data) =
    (if len <=? 31
     then emit ([len; 0xFF] ++ le16 company_id ++ ints_of_bytes data)
     else emit []) /\
  (fst (service_data_element db (uuid_str, data)) <> [] <-> len <= 31) /\
  (fst (manufacturer_element (company_id, data)) <> [] <-> len <= 31) /\
  service_data_element db (bad_key, data) = emit [].
Proof.
  intros Hn [e He] Hc len.
  assert (E1 := service_data_element_eq db uuid_str data).
  rewrite Hn in E1. fold len in E1.
  assert (E2 := manufacturer_element_eq company_id data Hc). fold len in E2.
  split; [exact E1|]. split; [exact E2|].
  rewrite E1, E2. split; [|split].
  - destruct (Z.leb_spec len 31); cbn [emit fst app]; split; intros H';
      try lia; try congruence; discriminate.
  - destruct (Z.leb_spec len 31); cbn [emit fst app]; split; intros H';
      try lia; try congruence; discriminate.
  - rewrite service_data_element_eq, He. reflexivity.
Qed.

(* ------------------------------------------------------------------ *)
(** ** C8: the local name *)

(** C8. For a name that is absent or empty the name block appends nothing,
    and the list built is the flags followed by the other elements. For a
    name that is present and not empty (text of Unicode scalar values), it
    appends the length byte, the type 0x09 and the payload, where the payload
    is the first 29 bytes of the UTF-8 encoding of the name, is not empty,
    and the length byte is the payload's length plus one. *)
Theorem local_name_element (db : unicode_db) (device : BLEDevice)
    (adv : AdvertisementData) :
  well_formed_name (dev_name device) ->
  (dev_name device = None \/ dev_name device = Some [] ->
     local_name (dev_name device) = emit [] /\
     build_ad_data db device adv = seq (emit flags) (other_elements db adv)) /\
  (forall c s, dev_name device = Some (c :: s) ->
     exists b,
       encode_utf8 (c :: s) = Ok b /\
       let payload := firstn 29 b in
       local_name (dev_name device) =
         emit ([Z.of_nat (length payload) + 1; 0x09] ++ payload) /\
       payload <> [] /\ (length payload <= 29)%nat /\
       build_ad_data db device adv =
         seq (emit (flags ++ [Z.of_nat (length payload) + 1; 0x09] ++ payload))
             (other_elements db adv)).
Proof.
  intros Hwf. split.
  - intros [E|E]; unfold build_ad_data; rewrite E; split; try reflexivity;
      destruct (other_elements db adv) as [l [e|]]; reflexivity.
  - intros c s E. rewrite E in Hwf.
    destruct (encode_utf8_scalar _ Hwf) as [b Hb].
    exists b. split; [exact Hb|]. cbv zeta.
    destruct (local_name_encoded _ _ _ Hb) as (El & Hne & Hlen).
    unfold build_ad_data. rewrite E, El.
    repeat split; assumption.
Qed.

(* ------------------------------------------------------------------ *)
(** ** C9: replay *)

(** C9. For an index that is negative or not below the length of the store
    (so for every index when the store is empty), the replay ends with
    [IndexOutOfRange], raises nothing, hands no command to the process
    layer, and leaves the store as it was. *)
Theorem replay_index_out_of_range (db : unicode_db)
    (run : list (list N) -> result (Z * list N))
    (captured_packets : list packet_info) (index : Z) :
  ~ (0 <= index < Z.of_nat (length captured_packets)) ->
  replay_packet db run captured_packets index =
  (Ok IndexOutOfRange, [], captured_packets).
Proof.
  intros H. unfold replay_packet.
  destruct (Z.leb_spec 0 index), (Z.ltb_spec index (Z.of_nat (length captured_packets)));
    cbn [andb]; try reflexivity.
  lia.
Qed.

(** The replay never lets an exception escape, whatever the index. *)
Lemma replay_never_raises (db : unicode_db)
    (run : list (list N) -> result (Z * list N))
    (captured_packets : list packet_info) (index : Z) :
  exists o cmds,
    replay_packet db run captured_packets index = (Ok o, cmds, captured_packets).
Proof.
  unfold replay_packet.
  destruct (Z.leb_spec 0 index), (Z.ltb_spec index (Z.of_nat (length captured_packets)));
    cbn [andb]; eauto.
  destruct (nth_error captured_packets (Z.to_nat index)) as [p|] eqn:E.
  - destruct (hci_cmd p); eauto.
    destruct (run _) as [[rc err]|e]; eauto.
    destruct (rc =? 0); eauto.
  - apply nth_error_None in E. lia.
Qed.

(* ------------------------------------------------------------------ *)
(** ** C10: packets without a device name *)

Lemma encoded_name (db : unicode_db) (q : packet_info) :
  encoded db q ->
  name q <> [] /\ (name q = Unknown \/ nth_error (raw_data q) 4 = Some 0x09).
Proof.
  intros (now & device & adv & q0 & Hq0 & _ & En & Er & _).
  rewrite En, Er.
  destruct (parse_name_tag _ _ _ _ _ Hq0)
    as [(_ & Hn & _)|(c & s & _ & Hn & Ht)]; rewrite Hn.
  - split; [discriminate|left; reflexivity].
  - split; [discriminate|right; exact Ht].
Qed.

(** After the callback has taken an observation, the store holds a packet
    with the key of the observation. *)
Lemma detection_callback_stores (db : unicode_db)
    (tn ta : option (list (list N))) (now : list N) (device : BLEDevice)
    (adv : AdvertisementData) (s s' : list packet_info) (p : packet_info) :
  filtered_out tn ta device = false ->
  parse_advertisement_data db now device adv = Ok p ->
  detection_callback db tn ta now device adv s = Ok s' ->
  exists i q, nth_error s' i = Some q /\ same_key p q = true /\
              (q = p \/ exists q0, In q0 s /\ q = refresh p q0).
Proof.
  intros Hf Hp. unfold detection_callback. rewrite Hf, Hp. cbn [bind].
  destruct (find_existing p s) as [i|] eqn:F; intros [= <-].
  - destruct (find_existing_some _ _ _ F) as (q0 & Hn & K & _).
    exists i, (refresh p q0). split; [apply update_at_same, Hn|].
    split; [exact K|]. right. exists q0. split; [|reflexivity].
    eapply nth_error_In, Hn.
  - exists (length s), p. split.
    + rewrite nth_error_app2, Nat.sub_diag by lia. reflexivity.
    + split; [|left; reflexivity]. apply same_key_iff. auto.
Qed.

(** C10. For an observation whose device name is absent, the packet the
    encoder returns is named 'Unknown' and the name block appends nothing:
    the list built is the flags followed by the other elements, and the byte
    at position 4 of the payload is not the type 0x09. After the callback
    has taken the observation into a store of a capture session, the packet
    stored under its key is named 'Unknown'. No packet of such a store, and
    no entry of the command listing, has an empty name. *)
Theorem absent_name_is_Unknown (db : unicode_db) (now : list N)
    (device : BLEDevice) (adv : AdvertisementData) (p : packet_info) :
  dev_name device = None ->
  parse_advertisement_data db now device adv = Ok p ->
  name p = lit "Unknown" /\
  local_name (dev_name device) = emit [] /\
  build_ad_data db device adv = seq (emit flags) (other_elements db adv) /\
  nth_error (raw_data p) 4 <> Some 0x09 /\
  (forall tn ta s s',
     reachable db s ->
     filtered_out tn ta device = false ->
     detection_callback db tn ta now device adv s = Ok s' ->
     exists i q,
       nth_error s' i = Some q /\ address q = dev_address device /\
       raw_data q = raw_data p /\ name q = lit "Unknown") /\
  (forall s q, reachable db s -> In q s -> name q <> []) /\
  (forall s t, reachable db s -> In t (get_hci_commands s) ->
               fst (fst t) <> []).
Proof.
  intros Hnone Hp.
  destruct (parse_name_tag _ _ _ _ _ Hp)
    as [(_ & Hn & Htag)|(c & s & E & _)]; [|congruence].
  destruct (parse_fields _ _ _ _ _ Hp) as (_ & Haddr & _).
  assert (Hnames : forall s q, reachable db s -> In q s -> name q <> []).
  { intros s q Hs Hq. destruct (reachable_inv db s Hs) as [_ He].
    exact (proj1 (encoded_name db q (proj1 (Forall_forall _ _) He q Hq))). }
  split; [exact Hn|]. split; [rewrite Hnone; reflexivity|].
  split.
  { unfold build_ad_data. rewrite Hnone.
    destruct (other_elements db adv) as [l [e|]]; reflexivity. }
  split; [exact Htag|]. split; [|split; [exact Hnames|]].
  - intros tn ta s s' Hs Hf Hcb.
    destruct (detection_callback_stores _ _ _ _ _ _ _ _ _ Hf Hp Hcb)
      as (i & q & Hi & K & Hq).
    exists i, q. apply same_key_iff in K. destruct K as [Ka Kr].
    split; [exact Hi|]. split; [congruence|]. split; [exact Kr|].
    destruct Hq as [->|(q0 & Hq0 & ->)]; [exact Hn|].
    cbn [refresh name raw_data] in *.
    destruct (reachable_inv db s Hs) as [_ He].
    destruct (encoded_name db q0 (proj1 (Forall_forall _ _) He q0 Hq0))
      as [_ [Hu|Ht]]; [exact Hu|].
    rewrite Kr in Ht. contradiction.
  - intros s t Hs Ht. unfold get_hci_commands in Ht.
    apply in_map_iff in Ht. destruct Ht as (q & <- & Hq).
    apply filter_In in Hq. cbn [fst]. apply (Hnames s q Hs), Hq.
Qed.

(* ------------------------------------------------------------------ *)
(** ** The statements on concrete observations *)

Lemma payload_flags_and_limit_witness :
  exists p,
    parse_advertisement_data latin1_db now0 dev_test adv_long = Ok p /\
    firstn 3 (raw_data p) = [0x02; 0x01; 0x06] /\
    (3 <= length (raw_data p) <= 31)%nat /\
    length (fst (build_ad_data latin1_db dev_test adv_long)) = 41%nat /\
    raw_data p = firstn 31 (fst (build_ad_data latin1_db dev_test adv_long)).
Proof.
  destruct (parse_advertisement_data latin1_db now0 dev_test adv_long)
    as [p|e] eqn:E; [|vm_compute in E; discriminate].
  exists p. split; [reflexivity|].
  destruct (payload_flags_and_limit _ _ _ _ _ E) as (A & B & ad & Hb & _ & C & _).
  split; [exact A|]. split; [exact B|].
  rewrite Hb. cbn [fst].
  assert (Hl : length ad = 41%nat).
  { apply (f_equal (fun x => length (fst x))) in Hb. cbn [fst] in Hb.
    rewrite <- Hb. vm_compute. reflexivity. }
  split; [exact Hl|]. apply C. lia.
Defined.

Lemma repeated_observation_witness :
  exists store' updated,
    detection_callback latin1_db None None now1 dev_test adv_weak
      [pkt_test now0] = Ok store' /\
    length store' = 1%nat /\ nth_error store' 0 = Some updated /\
    hci_cmd updated = hci_cmd (pkt_test now0) /\
    rssi updated = -60 /\ timestamp updated = now1.
Proof.
  assert (Hd : distinct_keys [pkt_test now0]) by (split; [intros q []|exact I]).
  destruct (parse_advertisement_data latin1_db now1 dev_test adv_weak)
    as [p|e] eqn:E; [|vm_compute in E; discriminate].
  destruct (repeated_observation_updates_in_place latin1_db None None now1
              dev_test adv_weak [pkt_test now0] p Hd E) as [H _].
  assert (Ep : p = finish now1 dev_test adv_weak test_payload)
    by (vm_compute in E; injection E as <-; reflexivity).
  destruct (H 0%nat (pkt_test now0) eq_refl)
    as (s' & u & H1 & H2 & H3 & _ & _ & _ & _ & H8 & H9 & _);
    [rewrite Ep; reflexivity|rewrite Ep; reflexivity|].
  exists s', u. repeat split; try assumption; apply H9; reflexivity.
Defined.

Lemma encoder_returns_and_skips_witness :
  well_formed dev_test adv_mixed /\
  (exists p, parse_advertisement_data latin1_db now0 dev_test adv_mixed = Ok p) /\
  parse_advertisement_data latin1_db now0 dev_test adv_mixed =
  parse_advertisement_data latin1_db now0 dev_test
    (with_service_uuids adv_mixed [battery_uuid; lit "180A"]).
Proof.
  assert (Hwf : well_formed dev_test adv_mixed).
  { split.
    - repeat constructor.
    - repeat constructor; cbn; lia. }
  split; [exact Hwf|].
  destruct (encoder_returns_and_skips_bad_uuids latin1_db now0 dev_test
              adv_mixed Hwf) as (H1 & H2 & _).
  split; [exact H1|].
  apply (H2 [battery_uuid] (lit "zz") [lit "180A"] eq_refl).
  exists ValueError. vm_compute. reflexivity.
Defined.

(** The claim with 33 tokens fails on the observation named "Test": its
    command has 32 tokens after the opcode pair. *)
Lemma command_has_not_33_tokens :
  parse_advertisement_data latin1_db now0 dev_test adv_empty
    = Ok (pkt_test now0) /\
  raw_data (pkt_test now0) <> [] /\
  length (after_opcode (split_ws latin1_db (hci_cmd (pkt_test now0))))
    <> 33%nat.
Proof.
  split; [reflexivity|]. split; [discriminate|].
  vm_compute. discriminate.
Qed.

Lemma command_has_32_tokens_witness :
  parse_advertisement_data latin1_db now0 dev_test adv_empty
    = Ok (pkt_test now0) /\
  length (after_opcode (split_ws latin1_db (hci_cmd (pkt_test now0))))
    = 32%nat.
Proof.
  assert (E : parse_advertisement_data latin1_db now0 dev_test adv_empty
              = Ok (pkt_test now0)) by reflexivity.
  split; [exact E|].
  exact (proj1 (proj2 (proj2 (command_has_32_tokens _ _ _ _ _ E)))).
Defined.

Lemma command_generation_witness :
  (length test_payload <= 31)%nat /\ Forall is_byte test_payload /\
  (hci_cmd (finish now0 dev_test adv_empty test_payload) = [] <->
   test_payload = []) /\
  length (test_payload ++ repeat 0 (31 - length test_payload)) = 31%nat.
Proof.
  assert (Hlen : (length test_payload <= 31)%nat) by (cbn; lia).
  assert (Hby : Forall is_byte test_payload)
    by (repeat constructor; unfold is_byte; lia).
  split; [exact Hlen|]. split; [exact Hby|].
  destruct (command_generation now0 dev_test adv_empty test_payload Hlen Hby)
    as (H1 & H2 & _).
  split; [exact H1|]. apply H2. discriminate.
Defined.

(** The parse worded with the dashed form fails on a string of 36 characters
    that is not in that form: the whole string is no number, yet the code
    reads its first group 180f and appends 03 03 0F 18. *)
Lemma odd_uuid_is_read_by_group :
  dashed_form_36 odd_uuid = false /\
  service_uuid_element latin1_db odd_uuid = emit [0x03; 0x03; 0x0F; 0x18] /\
  service_uuid_element latin1_db odd_uuid <>
    match spec_service_uuid_value latin1_db odd_uuid with
    | Ok n => emit ([0x03; 0x03] ++ le16 (Z.land n 0xFFFF))
    | Raise _ => emit []
    end.
Proof.
  split; [vm_compute; reflexivity|].
  split; [vm_compute; reflexivity|].
  vm_compute. discriminate.
Qed.

(** The claim that an element is emitted exactly when its length is at most
    31 fails on a service-data pair whose key does not parse: its length is
    4 and nothing is appended. *)
Lemma unparsable_key_emits_nothing :
  ~ (fst (service_data_element latin1_db (lit "zz", [x01])) <> [] <->
     2 + Z.of_nat (length [x01]) + 1 <= 31).
Proof.
  intros [_ H]. apply H; [cbn; lia|]. reflexivity.
Qed.

Lemma data_elements_witness :
  int_base16 latin1_db (first_group (lit "feaa")) = Ok 0xFEAA /\
  service_data_element latin1_db (lit "feaa", [x02; x15]) =
    emit [5; 0x16; 0xAA; 0xFE; 0x02; 0x15] /\
  manufacturer_element (0x004C, [x02; x15]) =
    emit [5; 0xFF; 0x4C; 0x00; 0x02; 0x15] /\
  service_data_element latin1_db (lit "zz", [x02; x15]) = emit [].
Proof.
  assert (Hn : int_base16 latin1_db (first_group (lit "feaa")) = Ok 0xFEAA)
    by (vm_compute; reflexivity).
  assert (Hbad : exists e, int_base16 latin1_db (first_group (lit "zz")) = Raise e)
    by (exists ValueError; vm_compute; reflexivity).
  assert (Hc : 0 <= 0x004C <= 0xFFFF) by lia.
  split; [exact Hn|].
  destruct (data_elements latin1_db (lit "feaa") (lit "zz") 0xFEAA 0x004C
              [x02; x15] Hn Hbad Hc) as (H1 & H2 & _ & _ & H5).
  split; [exact H1|]. split; [exact H2|exact H5].
Defined.

Lemma local_name_element_witness :
  well_formed_name (dev_name dev_test) /\
  exists b,
    encode_utf8 (lit "Test") = Ok b /\
    local_name (dev_name dev_test) =
      emit ([Z.of_nat (length (firstn 29 b)) + 1; 0x09] ++ firstn 29 b).
Proof.
  assert (Hwf : well_formed_name (dev_name dev_test)) by (repeat constructor).
  split; [exact Hwf|].
  destruct (proj2 (local_name_element latin1_db dev_test adv_empty Hwf)
              84%N (lit "est") eq_refl) as (b & Hb & Hl & _).
  exists b. split; [exact Hb|exact Hl].
Defined.

Lemma replay_index_out_of_range_witness :
  ~ (0 <= -1 < Z.of_nat (length [pkt_test now0])) /\
  replay_packet latin1_db (fun _ => Ok (0, [])) [pkt_test now0] (-1) =
    (Ok IndexOutOfRange, [], [pkt_test now0]).
Proof.
  assert (H : ~ (0 <= -1 < Z.of_nat (length [pkt_test now0]))) by lia.
  split; [exact H|].
  exact (replay_index_out_of_range latin1_db (fun _ => Ok (0, []))
           [pkt_test now0] (-1) H).
Defined.

Lemma absent_name_is_Unknown_witness :
  exists p,
    parse_advertisement_data latin1_db now0 dev_nameless adv_mixed = Ok p /\
    name p = lit "Unknown" /\ nth_error (raw_data p) 4 <> Some 0x09.
Proof.
  destruct (parse_advertisement_data latin1_db now0 dev_nameless adv_mixed)
    as [p|e] eqn:E; [|vm_compute in E; discriminate].
  exists p. split; [reflexivity|].
  destruct (absent_name_is_Unknown latin1_db now0 dev_nameless adv_mixed p
              eq_refl E) as (H1 & _ & _ & H4 & _).
  split; assumption.
Defined.

(* ------------------------------------------------------------------ *)
(** ** When the encoder raises *)

Lemma scalar_dec (c : N) : scalar c \/ ~ scalar c.
Proof.
  unfold scalar.
  destruct (N.ltb_spec c 0xD800); [left; lia|].
  destruct (N.ltb_spec 0xDFFF c); [|right; lia].
  destruct (N.ltb_spec c 0x110000); [left; lia|right; lia].
Qed.

Lemma utf8_char_not_scalar (c : N) :
  ~ scalar c -> utf8_char c = Raise UnicodeEncodeError.
Proof.
  unfold scalar, utf8_char. intros Hc.
  destruct (Z.ltb_spec (Z.of_N c) 0x80); [exfalso; lia|].
  destruct (Z.ltb_spec (Z.of_N c) 0x800); [exfalso; lia|].
  destruct (Z.ltb_spec (Z.of_N c) 0x10000).
  - destruct (Z.leb_spec 0xD800 (Z.of_N c)), (Z.leb_spec (Z.of_N c) 0xDFFF);
      cbn [andb]; try reflexivity; exfalso; lia.
  - destruct (Z.ltb_spec (Z.of_N c) 0x110000); [exfalso; lia|reflexivity].
Qed.

Lemma encode_utf8_not_scalar (s : list N) :
  ~ Forall scalar s -> encode_utf8 s = Raise UnicodeEncodeError.
Proof.
  induction s as [|c s IH]; intros H; [destruct H; constructor|].
  cbn [encode_utf8]. destruct (scalar_dec c) as [Hc|Hc].
  - destruct (utf8_char_scalar c Hc) as [b ->]. cbn [bind].
    rewrite IH; [reflexivity|]. intros Hs. apply H. constructor; assumption.
  - rewrite (utf8_char_not_scalar c Hc). reflexivity.
Qed.

Lemma manufacturer_element_raises (kv : Z * list byte) :
  snd (manufacturer_element kv) =
  if bad_manufacturer kv then Some StructError else None.
Proof.
  destruct kv as [c d]. unfold manufacturer_element, bad_manufacturer.
  cbn [fst snd]. destruct (_ <=? 31); [|reflexivity]. cbn [andb].
  unfold pack_H. destruct (andb (0 <=? c) (c <=? 65535)); reflexivity.
Qed.

Lemma for_each_manufacturer_raises (md : list (Z * list byte)) :
  snd (for_each manufacturer_element md) =
  if existsb bad_manufacturer md then Some StructError else None.
Proof.
  induction md as [|kv md IH]; [reflexivity|].
  cbn [for_each existsb].
  pose proof (manufacturer_element_raises kv) as H.
  destruct (manufacturer_element kv) as [l [e|]]; cbn [snd] in H;
    destruct (bad_manufacturer kv); try discriminate.
  - injection H as ->. reflexivity.
  - cbn [seq snd orb]. exact IH.
Qed.

(** X1. The encoder raises in two cases only, and the first wins: a name
    that holds a code point which is not a Unicode scalar value gives
    [UnicodeEncodeError]; otherwise a manufacturer entry of at most 28 data
    bytes whose company identifier is outside 0..65535 gives [struct.error];
    otherwise a packet is returned. An entry of more than 28 bytes is never
    packed, so its identifier cannot raise. *)
Theorem encoder_outcome (db : unicode_db) (now : list N) (device : BLEDevice)
    (adv : AdvertisementData) :
  (~ well_formed_name (dev_name device) ->
   parse_advertisement_data db now device adv = Raise UnicodeEncodeError) /\
  (well_formed_name (dev_name device) ->
   existsb bad_manufacturer (manufacturer_data adv) = true ->
   parse_advertisement_data db now device adv = Raise StructError) /\
  (well_formed_name (dev_name device) ->
   existsb bad_manufacturer (manufacturer_data adv) = false ->
   exists p, parse_advertisement_data db now device adv = Ok p).
Proof.
  unfold parse_advertisement_data, build_ad_data. rewrite seq_emit.
  split; [|split].
  - intros Hwf. destruct (dev_name device) as [[|c s]|].
    + exfalso. apply Hwf. constructor.
    + unfold local_name. rewrite (encode_utf8_not_scalar _ Hwf). reflexivity.
    + exfalso. apply Hwf. exact I.
  - intros Hwf Hbad. rewrite seq_ok by (apply local_name_ok, Hwf).
    unfold other_elements.
    rewrite (for_each_ok (service_uuid_element db)) by reflexivity.
    rewrite (for_each_ok (service_data_element db)) by reflexivity.
    rewrite !seq_emit. cbn [snd].
    rewrite for_each_manufacturer_raises, Hbad. reflexivity.
  - intros Hwf Hgood. rewrite seq_ok by (apply local_name_ok, Hwf).
    unfold other_elements.
    rewrite (for_each_ok (service_uuid_element db)) by reflexivity.
    rewrite (for_each_ok (service_data_element db)) by reflexivity.
    rewrite !seq_emit. cbn [snd].
    rewrite for_each_manufacturer_raises, Hgood. eauto.
Qed.

(* ------------------------------------------------------------------ *)
(** ** A long name *)

Lemma limit31_firstn (l : list Z) : limit31 l = firstn 31 l.
Proof.
  unfold limit31. destruct (Nat.ltb_spec 31 (length l)); [reflexivity|].
  symmetry. apply firstn_all2. assumption.
Qed.

(** X2. When the UTF-8 encoding of the name has 26 bytes or more, the
    payload is the flags, the name header and the first 26 bytes of the
    name, 31 bytes in all: nothing of the service UUIDs, service data or
    manufacturer data is in it, and when the encoding has more than 26 bytes
    the length byte of the name element announces more bytes than follow
    it. *)
Theorem long_name_takes_payload (db : unicode_db) (now : list N)
    (device : BLEDevice) (adv : AdvertisementData) (c : N) (s : list N)
    (b : list Z) (p : packet_info) :
  dev_name device = Some (c :: s) ->
  encode_utf8 (c :: s) = Ok b ->
  (26 <= length b)%nat ->
  parse_advertisement_data db now device adv = Ok p ->
  raw_data p =
    [0x02; 0x01; 0x06; Z.of_nat (Nat.min 29 (length b)) + 1; 0x09]
    ++ firstn 26 b /\
  length (raw_data p) = 31%nat /\
  ((26 < length b)%nat ->
   exists n, nth_error (raw_data p) 3 = Some n /\
             Z.of_nat (length (skipn 4 (raw_data p))) < n).
Proof.
  intros Hname Henc Hlen Hp.
  destruct (parse_ok_inv _ _ _ _ _ Hp) as (ad & Hb & ->).
  rewrite finish_raw_data, limit31_firstn.
  unfold build_ad_data in Hb. rewrite Hname, seq_emit in Hb.
  destruct (local_name_encoded _ _ _ Henc) as (El & _ & _).
  rewrite El, seq_emit in Hb.
  apply (f_equal fst) in Hb. cbn [fst] in Hb. rewrite <- Hb.
  assert (Hf : length (firstn 29 b) = Nat.min 29 (length b))
    by apply length_firstn.
  assert (E : firstn 31 (flags ++ ([Z.of_nat (length (firstn 29 b)) + 1; 9]
                ++ firstn 29 b) ++ fst (other_elements db adv))
              = [0x02; 0x01; 0x06; Z.of_nat (Nat.min 29 (length b)) + 1; 0x09]
                ++ firstn 26 b).
  { rewrite Hf.
    assert (H26 : firstn 26 (firstn 29 b) = firstn 26 b)
      by (rewrite firstn_firstn; reflexivity).
    revert Hf H26. generalize (firstn 29 b) as nb. intros nb Hf H26.
    generalize (fst (other_elements db adv)) as rest. intros rest.
    change (firstn 31 (flags ++ ([Z.of_nat (Nat.min 29 (length b)) + 1; 9]
                                 ++ nb) ++ rest))
      with (0x02 :: 0x01 :: 0x06 :: Z.of_nat (Nat.min 29 (length b)) + 1
            :: 0x09 :: firstn 26 (nb ++ rest)).
    cbn [app]. do 5 f_equal.
    rewrite firstn_app, H26.
    replace (26 - length nb)%nat with 0%nat by lia.
    apply app_nil_r. }
  rewrite E. split; [reflexivity|].
  assert (H26 : length (firstn 26 b) = 26%nat) by (rewrite length_firstn; lia).
  split; [cbn [app length]; rewrite H26; reflexivity|].
  intros Hlong. eexists. split; [reflexivity|].
  cbn [app skipn length]. rewrite H26. lia.
Qed.

(* ------------------------------------------------------------------ *)
(** ** Reading the command and the hex dump back *)

Lemma digit_of_hex_upper_table :
  forallb (fun n => match digit_value (hex_upper_digit (Z.of_nat n)) with
                    | Some d => d =? Z.of_nat n
                    | None => false
                    end) (List.seq 0 16) = true.
Proof. vm_compute. reflexivity. Qed.

Lemma digit_of_hex_upper (d : Z) :
  0 <= d < 16 -> digit_value (hex_upper_digit d) = Some d.
Proof.
  intros Hd. replace d with (Z.of_nat (Z.to_nat d)) by lia.
  assert (Hin : In (Z.to_nat d) (List.seq 0 16)) by (apply in_seq; lia).
  pose proof (proj1 (forallb_forall _ _) digit_of_hex_upper_table _ Hin) as H.
  cbv beta in H.
  destruct (digit_value (hex_upper_digit (Z.of_nat (Z.to_nat d))));
    [|discriminate].
  apply Z.eqb_eq in H. congruence.
Qed.

(** [int(_, 16)] reads the two digits of a byte back. *)
Lemma int_two_hex (db : unicode_db) (b : Z) :
  is_byte b -> int_base16 db (two_hex b) = Ok b.
Proof.
  intros Hb. unfold is_byte in Hb.
  assert (H1 : 0 <= b / 16 < 16)
    by (split; [apply Z.div_pos; lia|apply Z.div_lt_upper_bound; lia]).
  assert (H2 : 0 <= b mod 16 < 16) by (apply Z.mod_pos_bound; lia).
  rewrite int_base16_hex.
  - f_equal. unfold hex_value, two_hex. cbn [fold_left].
    rewrite (digit_of_hex_upper _ H1), (digit_of_hex_upper _ H2).
    pose proof (Z.div_mod b 16). lia.
  - discriminate.
  - unfold two_hex. repeat constructor; eexists; apply digit_of_hex_upper;
      assumption.
Qed.

Lemma map_int_two_hex (db : unicode_db) (l : list Z) :
  Forall is_byte l -> map (int_base16 db) (map two_hex l) = map Ok l.
Proof.
  induction 1 as [|x l Hx _ IH]; [reflexivity|].
  cbn [map]. rewrite (int_two_hex db x Hx), IH. reflexivity.
Qed.

Lemma join_two_length (ws : list (list N)) :
  Forall (fun w => length w = 2%nat) ws -> ws <> [] ->
  length (join blank ws) = (3 * length ws - 1)%nat.
Proof.
  induction 1 as [|w ws Hw Hws IH]; [congruence|]. intros _.
  destruct ws as [|w' ws'].
  - cbn [join length]. rewrite Hw. reflexivity.
  - change (join blank (w :: w' :: ws'))
      with (w ++ blank ++ join blank (w' :: ws')).
    rewrite !length_app, Hw, IH by discriminate. cbn [blank length]. lia.
Qed.

Lemma two_hex_token_length (w : list N) : two_hex_token w -> length w = 2%nat.
Proof. intros (a & b & -> & _). reflexivity. Qed.

(** X3. For every packet the encoder returns, reading the tokens after the
    opcode pair with [int(_, 16)] gives back the length of the payload and
    then the payload followed by zeros up to 31 bytes; the command always
    has 132 characters. *)
Theorem command_round_trip (db : unicode_db) (now : list N)
    (device : BLEDevice) (adv : AdvertisementData) (p : packet_info) :
  parse_advertisement_data db now device adv = Ok p ->
  map (int_base16 db) (after_opcode (split_ws db (hci_cmd p))) =
    map Ok (Z.of_nat (length (raw_data p))
            :: raw_data p ++ repeat 0 (31 - length (raw_data p))) /\
  length (hci_cmd p) = 132%nat.
Proof.
  intros Hp.
  destruct (parse_fields _ _ _ _ _ Hp) as (_ & _ & _ & _ & Hc & Hlen & Hby & _).
  destruct (hci_cmd_of_eq _ Hlen Hby) as (E & H32 & Htok).
  rewrite Hc. split.
  - rewrite (hci_cmd_words db _ Hlen Hby), after_opcode_words.
    unfold hci_params_of. cbn [map]. f_equal.
    + apply int_two_hex. unfold is_byte. lia.
    + apply map_int_two_hex. apply Forall_app. split; [assumption|].
      apply Forall_forall. intros x Hx. apply repeat_spec in Hx. subst x.
      unfold is_byte. lia.
  - rewrite E, length_app, join_two_length.
    + rewrite H32. reflexivity.
    + revert Htok. apply Forall_impl. apply two_hex_token_length.
    + unfold hci_params_of. discriminate.
Qed.

Lemma hex_dump_eq (l : list Z) :
  Forall is_byte l -> hex_dump l = join blank (map two_hex l).
Proof.
  intros H. unfold hex_dump. f_equal. apply map_ext_in. intros x Hx.
  apply format_02X_byte. exact (proj1 (Forall_forall _ _) H x Hx).
Qed.

(** X4. For every packet the encoder returns, [print_packet_info] prints
    seven texts: time, address, name, RSSI, the hex dump of the payload, the
    command and a rule of 80 dashes; the blank-separated words of the hex
    dump, read with [int(_, 16)], are the payload. *)
Theorem printed_hex_dump_reads_back (db : unicode_db) (now : list N)
    (device : BLEDevice) (adv : AdvertisementData) (p : packet_info) :
  parse_advertisement_data db now device adv = Ok p ->
  print_packet_info p =
    [ label_time ++ now;
      label_address ++ dev_address device;
      label_name ++ name p;
      lit "RSSI: " ++ format_int (adv_rssi adv) ++ lit " dBm";
      label_raw ++ hex_dump (raw_data p);
      label_cmd ++ hci_cmd p;
      dashes80 ] /\
  map (int_base16 db) (split_ws db (hex_dump (raw_data p))) =
    map Ok (raw_data p).
Proof.
  intros Hp.
  destruct (parse_fields _ _ _ _ _ Hp)
    as (Ht & Ha & _ & Hr & _ & _ & Hby & Hne).
  split.
  - unfold print_packet_info. rewrite Ht, Ha, Hr.
    destruct (raw_data p); [congruence|reflexivity].
  - rewrite (hex_dump_eq _ Hby), split_ws_join.
    + apply map_int_two_hex, Hby.
    + apply Forall_forall. intros w Hw. apply in_map_iff in Hw.
      destruct Hw as (x & <- & Hx). apply two_hex_token_word, two_hex_is_token.
      exact (proj1 (Forall_forall _ _) Hby x Hx).
Qed.

(* ------------------------------------------------------------------ *)
(** ** A payload that fits is a sequence of AD structures *)

Lemma ad_structures_app (a b : list Z) :
  ad_structures a -> ad_structures b -> ad_structures (a ++ b).
Proof.
  induction 1 as [|t body rest _ IH]; intros Hb; [exact Hb|].
  cbn [app]. rewrite <- app_assoc. constructor. apply IH, Hb.
Qed.

Lemma ad_structures_one (n t : Z) (body : list Z) :
  n = Z.of_nat (length body) + 1 -> ad_structures (n :: t :: body).
Proof.
  intros ->. rewrite <- (app_nil_r body) at 2. constructor. constructor.
Qed.

Lemma for_each_structures {A} (body : A -> appender) (l : list A) :
  (forall x, snd (body x) = None) ->
  (forall x, ad_structures (fst (body x))) ->
  ad_structures (fst (for_each body l)).
Proof.
  intros Hok Hs. induction l as [|x l IH]; [constructor|].
  cbn [for_each]. rewrite seq_ok by apply Hok. cbn [fst].
  apply ad_structures_app; [apply Hs|apply IH].
Qed.

Lemma service_uuid_element_structure (db : unicode_db) (uuid_str : list N) :
  ad_structures (fst (service_uuid_element db uuid_str)).
Proof.
  rewrite service_uuid_element_eq.
  destruct (service_uuid_value db uuid_str); [|constructor].
  apply ad_structures_one. reflexivity.
Qed.

Lemma service_data_element_structure (db : unicode_db)
    (kv : list N * list byte) :
  ad_structures (fst (service_data_element db kv)).
Proof.
  destruct kv as [k d]. rewrite service_data_element_eq.
  destruct (int_base16 db (first_group k)); [|constructor].
  destruct (_ <=? 31); [|constructor].
  apply ad_structures_one. rewrite length_app. unfold ints_of_bytes.
  rewrite length_map. cbn [le16 length]. lia.
Qed.

Lemma for_each_manufacturer_structures (md : list (Z * list byte)) :
  snd (for_each manufacturer_element md) = None ->
  ad_structures (fst (for_each manufacturer_element md)).
Proof.
  induction md as [|[c d] md IH]; [constructor|].
  cbn [for_each]. intros H.
  pose proof (manufacturer_element_raises (c, d)) as Hr.
  destruct (bad_manufacturer (c, d)) eqn:B.
  - destruct (manufacturer_element (c, d)) as [l o]. cbn [snd] in Hr.
    subst o. discriminate.
  - rewrite seq_ok in * by exact Hr. cbn [fst snd] in *.
    apply ad_structures_app; [|apply IH, H].
    unfold manufacturer_element in *.
    destruct (_ <=? 31); [|constructor].
    unfold pack_H in *.
    destruct (andb (0 <=? c) (c <=? 65535)); [|discriminate].
    apply ad_structures_one. cbn [eval emit seq fst].
    rewrite length_app. unfold ints_of_bytes.
    rewrite length_map. cbn [length]. lia.
Qed.

Lemma local_name_structure (n : option (list N)) :
  snd (local_name n) = None -> ad_structures (fst (local_name n)).
Proof.
  destruct n as [[|c s]|]; try (intros _; constructor).
  destruct (encode_utf8 (c :: s)) as [b|e] eqn:E.
  - destruct (local_name_encoded _ _ _ E) as (El & _ & _). rewrite El.
    intros _. apply ad_structures_one. reflexivity.
  - unfold local_name. rewrite E. discriminate.
Qed.

Lemma build_ad_data_structures (db : unicode_db) (device : BLEDevice)
    (adv : AdvertisementData) (ad : list Z) :
  build_ad_data db device adv = (ad, None) -> ad_structures ad.
Proof.
  unfold build_ad_data, other_elements. rewrite seq_emit.
  rewrite (for_each_ok (service_uuid_element db)) by reflexivity.
  rewrite (for_each_ok (service_data_element db)) by reflexivity.
  pose proof (local_name_structure (dev_name device)) as Hn.
  destruct (local_name (dev_name device)) as [ln [e|]]; [discriminate|].
  rewrite !seq_emit. cbn [seq fst snd] in *. intros H.
  assert (Hm : snd (for_each manufacturer_element (manufacturer_data adv)) = None)
    by (apply (f_equal snd) in H; exact H).
  apply (f_equal fst) in H. cbn [fst] in H. subst ad.
  apply (ad_structures_app [0x02; 0x01; 0x06]);
    [apply ad_structures_one; reflexivity|].
  apply ad_structures_app; [apply Hn; reflexivity|].
  apply ad_structures_app.
  { pose proof (for_each_structures (service_uuid_element db)
      (service_uuids adv) (fun _ => eq_refl)
      (service_uuid_element_structure db)) as Hs.
    rewrite for_each_ok in Hs by reflexivity. exact Hs. }
  apply ad_structures_app.
  { pose proof (for_each_structures (service_data_element db)
      (service_data adv) (fun _ => eq_refl)
      (service_data_element_structure db)) as Hs.
    rewrite for_each_ok in Hs by reflexivity. exact Hs. }
  apply for_each_manufacturer_structures, Hm.
Qed.

Lemma decode_ad_structures (l : list Z) :
  ad_structures l ->
  forall fuel, (length l < fuel)%nat ->
  exists elems,
    decode_ad fuel l = Some elems /\
    flat_map (fun e => (Z.of_nat (length (snd e)) + 1) :: fst e :: snd e) elems
    = l.
Proof.
  induction 1 as [|t body rest _ IH]; intros fuel Hf.
  - destruct fuel; [lia|]. exists []. split; reflexivity.
  - destruct fuel as [|fuel]; [lia|]. cbn [length] in Hf.
    rewrite length_app in Hf.
    destruct (IH fuel ltac:(lia)) as (elems & Hd & He).
    exists ((t, body) :: elems). split.
    + cbn [decode_ad length]. rewrite length_app.
      destruct (Z.leb_spec 1 (Z.of_nat (length body) + 1)); [|lia].
      destruct (Z.leb_spec (Z.of_nat (length body) + 1)
                  (Z.of_nat (S (length body + length rest)))); [|lia].
      cbn [andb].
      replace (Z.to_nat (Z.of_nat (length body) + 1 - 1)) with (length body)
        by lia.
      rewrite firstn_app, Nat.sub_diag, firstn_all. cbn [firstn].
      rewrite app_nil_r, skipn_app, Nat.sub_diag, skipn_all. cbn [skipn app].
      rewrite Hd. reflexivity.
    + cbn [flat_map fst snd app]. rewrite He. reflexivity.
Qed.

Lemma decode_ad_step (fuel : nat) (n t : Z) (r : list Z) :
  1 <= n <= Z.of_nat (S (length r)) ->
  decode_ad (S fuel) (n :: t :: r) =
  option_map (cons (t, firstn (Z.to_nat (n - 1)) r))
             (decode_ad fuel (skipn (Z.to_nat (n - 1)) r)).
Proof.
  intros H. cbn [decode_ad length].
  destruct (Z.leb_spec 1 n), (Z.leb_spec n (Z.of_nat (S (length r))));
    try lia. reflexivity.
Qed.

(** X5. When the elements together have at most 31 bytes, the payload of the
    packet is a sequence of AD structures whose length bytes are exact: it
    can be read back element by element, the elements read re-encode to the
    payload, and the first of them is the flags, type 0x01 with body 06. *)
Theorem fitting_payload_is_ad_structures (db : unicode_db) (now : list N)
    (device : BLEDevice) (adv : AdvertisementData) (p : packet_info) :
  parse_advertisement_data db now device adv = Ok p ->
  (length (fst (build_ad_data db device adv)) <= 31)%nat ->
  ad_structures (raw_data p) /\
  exists elems,
    decode_ad 32 (raw_data p) = Some ((0x01, [0x06]) :: elems) /\
    flat_map (fun e => (Z.of_nat (length (snd e)) + 1) :: fst e :: snd e)
             ((0x01, [0x06]) :: elems)
    = raw_data p.
Proof.
  intros Hp Hfit. destruct (parse_ok_inv _ _ _ _ _ Hp) as (ad & Hb & ->).
  rewrite finish_raw_data. rewrite Hb in Hfit. cbn [fst] in Hfit.
  assert (El : limit31 ad = ad)
    by (rewrite limit31_firstn; apply firstn_all2; exact Hfit).
  rewrite El. pose proof (build_ad_data_structures _ _ _ _ Hb) as Hs.
  split; [exact Hs|].
  destruct (build_ad_data_flags db device adv) as [rest Hr].
  rewrite Hb in Hr. cbn [fst] in Hr. subst ad.
  destruct (decode_ad_structures _ Hs 32 ltac:(lia)) as (elems & Hd & He).
  change (flags ++ rest) with (0x02 :: 0x01 :: 0x06 :: rest) in *.
  rewrite (decode_ad_step 31 2 1 (6 :: rest)) in Hd
    by (cbn [length]; lia).
  change (Z.to_nat (2 - 1)) with 1%nat in Hd. cbn [firstn skipn] in Hd.
  destruct (decode_ad 31 rest) as [es|] eqn:Er; [|discriminate].
  cbn [option_map] in Hd. injection Hd as <-.
  exists es. split; [|exact He].
  rewrite (decode_ad_step 31 2 1 (6 :: rest)) by (cbn [length]; lia).
  change (Z.to_nat (2 - 1)) with 1%nat. cbn [firstn skipn].
  rewrite Er. reflexivity.
Qed.

(* ------------------------------------------------------------------ *)
(** ** The store over a capture session *)

Lemma encoded_shape (db : unicode_db) (p : packet_info) :
  encoded db p ->
  firstn 3 (raw_data p) = [0x02; 0x01; 0x06] /\
  (3 <= length (raw_data p) <= 31)%nat /\
  Forall is_byte (raw_data p) /\
  hci_cmd p = hci_cmd_of (raw_data p) /\ name p <> [].
Proof.
  intros He. pose proof (encoded_name db p He) as [Hn _].
  destruct He as (now & device & adv & q & Hq & _ & _ & Er & Ec).
  rewrite Er, Ec.
  destruct (parse_fields _ _ _ _ _ Hq) as (_ & _ & _ & _ & Hc & Hlen & Hby & _).
  destruct (parse_ok_inv _ _ _ _ _ Hq) as (ad & Hb & ->).
  rewrite finish_raw_data in *.
  destruct (build_ad_data_flags db device adv) as [rest Hr].
  rewrite Hb in Hr. cbn [fst] in Hr.
  assert (H3 : firstn 3 (limit31 ad) = [0x02; 0x01; 0x06])
    by (rewrite limit31_prefix, Hr by lia; reflexivity).
  repeat split; auto.
  destruct (limit31 ad) as [|a [|b [|c l]]]; cbn in H3; try discriminate.
  cbn [length]. lia.
Qed.

(** X6. In every store a capture session can hold, no two packets have the
    same address and payload, and every packet has a payload of 3 to 31
    bytes that begins with the flags, the command generated from that
    payload, and a name that is not empty. *)
Theorem session_store_invariant (db : unicode_db) (s : list packet_info) :
  reachable db s ->
  distinct_keys s /\
  forall p, In p s ->
    firstn 3 (raw_data p) = [0x02; 0x01; 0x06] /\
    (3 <= length (raw_data p) <= 31)%nat /\
    Forall is_byte (raw_data p) /\
    hci_cmd p = hci_cmd_of (raw_data p) /\ name p <> [].
Proof.
  intros Hs. destruct (reachable_inv db s Hs) as [Hd He].
  split; [exact Hd|]. intros p Hp. apply (encoded_shape db).
  exact (proj1 (Forall_forall _ _) He p Hp).
Qed.

(** X7. One call of the callback never removes or moves a packet: the store
    keeps its length or grows by one, and every position it had still holds
    a packet with the same address, name, payload and command. *)
Theorem callback_keeps_earlier_packets (db : unicode_db)
    (tn ta : option (list (list N))) (now : list N) (device : BLEDevice)
    (adv : AdvertisementData) (s s' : list packet_info) :
  detection_callback db tn ta now device adv s = Ok s' ->
  (length s <= length s' <= S (length s))%nat /\
  forall j p, nth_error s j = Some p ->
    exists p', nth_error s' j = Some p' /\
      address p' = address p /\ name p' = name p /\
      raw_data p' = raw_data p /\ hci_cmd p' = hci_cmd p.
Proof.
  unfold detection_callback.
  destruct (filtered_out tn ta device).
  { intros [= <-]. split; [lia|]. intros j p Hj. exists p. auto. }
  destruct (parse_advertisement_data db now device adv) as [packet|e];
    [|discriminate]. cbn [bind].
  destruct (find_existing packet s) as [i|]; intros [= <-].
  - rewrite update_at_length. split; [lia|]. intros j p Hj.
    destruct (Nat.eq_dec j i) as [->|Hne].
    + exists (refresh packet p). split; [apply update_at_same, Hj|].
      repeat split.
    + exists p. rewrite update_at_other by exact Hne. auto.
  - rewrite length_app. cbn [length]. split; [lia|]. intros j p Hj.
    exists p. split; [|auto].
    rewrite nth_error_app1; [exact Hj|].
    apply nth_error_Some. congruence.
Qed.

Lemma find_existing_refresh (packet q : packet_info) (i : nat)
    (s : list packet_info) :
  find_existing packet (update_at i (refresh q) s) = find_existing packet s.
Proof.
  revert i. induction s as [|p s IH]; intros [|i]; cbn [update_at find_existing];
    try reflexivity.
  rewrite IH. reflexivity.
Qed.

Lemma update_at_twice (i : nat) (f : packet_info -> packet_info)
    (s : list packet_info) :
  (forall p, f (f p) = f p) ->
  update_at i f (update_at i f s) = update_at i f s.
Proof.
  intros Hf. revert i. induction s as [|p s IH]; intros [|i];
    cbn [update_at]; try reflexivity.
  - rewrite Hf. reflexivity.
  - rewrite IH. reflexivity.
Qed.

Lemma find_existing_appended (packet : packet_info) (s : list packet_info) :
  find_existing packet s = None ->
  find_existing packet (s ++ [packet]) = Some (length s).
Proof.
  induction s as [|p s IH]; cbn [find_existing app length].
  - intros _. assert (K : same_key packet packet = true)
      by (apply same_key_iff; auto).
    rewrite K. reflexivity.
  - destruct (same_key packet p); [discriminate|].
    destruct (find_existing packet s); [discriminate|].
    intros _. rewrite IH by reflexivity. reflexivity.
Qed.

Lemma update_at_last (f : packet_info -> packet_info) (s : list packet_info)
    (p : packet_info) :
  update_at (length s) f (s ++ [p]) = s ++ [f p].
Proof.
  induction s as [|q s IH]; [reflexivity|].
  cbn [length app update_at]. rewrite IH. reflexivity.
Qed.

(** X8. The callback is idempotent: called again with the same observation
    at the same time, it leaves the store it produced as it is. *)
Theorem callback_idempotent (db : unicode_db)
    (tn ta : option (list (list N))) (now : list N) (device : BLEDevice)
    (adv : AdvertisementData) (s s1 : list packet_info) :
  detection_callback db tn ta now device adv s = Ok s1 ->
  detection_callback db tn ta now device adv s1 = Ok s1.
Proof.
  unfold detection_callback.
  destruct (filtered_out tn ta device); [intros [= <-]; reflexivity|].
  destruct (parse_advertisement_data db now device adv) as [packet|e];
    [|discriminate]. cbn [bind].
  destruct (find_existing packet s) as [i|] eqn:F; intros [= <-].
  - rewrite find_existing_refresh, F. f_equal.
    apply update_at_twice. reflexivity.
  - rewrite (find_existing_appended _ _ F), update_at_last.
    destruct packet. reflexivity.
Qed.

Lemma find_existing_found (packet q : packet_info) (s : list packet_info) :
  In q s -> same_key packet q = true ->
  exists i, find_existing packet s = Some i.
Proof.
  intros Hq K. destruct (find_existing packet s) as [i|] eqn:F; [eauto|].
  rewrite find_existing_none in F. rewrite (F q Hq) in K. discriminate.
Qed.

(** X9. Hearing the same advertisement again with another RSSI at another
    time does not grow the store: when two observations of one device carry
    the same service UUIDs, service data and manufacturer data, the callback
    on the second, after the first, keeps the length of the store and leaves
    one packet of that address with the RSSI and the time of the second,
    every other position being untouched. *)
Theorem rssi_change_does_not_grow_store (db : unicode_db)
    (tn ta : option (list (list N))) (now1 now2 : list N) (device : BLEDevice)
    (adv1 adv2 : AdvertisementData) (s s1 : list packet_info) :
  service_uuids adv1 = service_uuids adv2 ->
  service_data adv1 = service_data adv2 ->
  manufacturer_data adv1 = manufacturer_data adv2 ->
  filtered_out tn ta device = false ->
  detection_callback db tn ta now1 device adv1 s = Ok s1 ->
  exists s2 i q,
    detection_callback db tn ta now2 device adv2 s1 = Ok s2 /\
    length s2 = length s1 /\
    nth_error s2 i = Some q /\
    address q = dev_address device /\
    rssi q = adv_rssi adv2 /\ timestamp q = now2 /\
    forall j, j <> i -> nth_error s2 j = nth_error s1 j.
Proof.
  intros Hu Hsd Hmd Hf H1.
  assert (Ho : other_elements db adv1 = other_elements db adv2)
    by (unfold other_elements; rewrite Hu, Hsd, Hmd; reflexivity).
  destruct (parse_advertisement_data db now1 device adv1) as [p1|e] eqn:P1.
  2:{ unfold detection_callback in H1. rewrite Hf, P1 in H1. discriminate. }
  destruct (parse_ok_inv _ _ _ _ _ P1) as (ad & Hb & ->).
  assert (Hb2 : build_ad_data db device adv2 = (ad, None))
    by (unfold build_ad_data in *; rewrite <- Ho; exact Hb).
  assert (P2 : parse_advertisement_data db now2 device adv2 =
               Ok (finish now2 device adv2 (limit31 ad)))
    by (unfold parse_advertisement_data; rewrite Hb2; reflexivity).
  destruct (detection_callback_stores _ _ _ _ _ _ _ _ _ Hf P1 H1)
    as (k & q0 & Hk & K & _).
  assert (K2 : same_key (finish now2 device adv2 (limit31 ad)) q0 = true).
  { apply same_key_iff. apply same_key_iff in K.
    destruct (finish_fields now1 device adv1 (limit31 ad)) as (_ & A1 & _).
    destruct (finish_fields now2 device adv2 (limit31 ad)) as (_ & A2 & _).
    rewrite !finish_raw_data in *. destruct K as [Ka Kr].
    split; congruence. }
  destruct (find_existing_found _ _ _ (nth_error_In _ _ Hk) K2) as [i F].
  destruct (find_existing_some _ _ _ F) as (q & Hq & Kq & _).
  exists (update_at i (refresh (finish now2 device adv2 (limit31 ad))) s1),
    i, (refresh (finish now2 device adv2 (limit31 ad)) q).
  unfold detection_callback. rewrite Hf, P2. cbn [bind]. rewrite F.
  split; [reflexivity|]. split; [apply update_at_length|].
  split; [apply update_at_same, Hq|].
  destruct (finish_fields now2 device adv2 (limit31 ad)) as (T & A & _ & R & _).
  apply same_key_iff in Kq. destruct Kq as [Ka _].
  cbn [refresh address rssi timestamp].
  split; [congruence|]. split; [exact R|]. split; [exact T|].
  intros j Hj. apply update_at_other, Hj.
Qed.

Lemma filter_all {A} (f : A -> bool) (l : list A) :
  (forall x, In x l -> f x = true) -> filter f l = l.
Proof.
  induction l as [|x l IH]; intros H; [reflexivity|].
  cbn [filter]. rewrite (H x) by (left; reflexivity).
  rewrite IH; [reflexivity|]. intros y Hy. apply H. right. exact Hy.
Qed.

Lemma hci_cmd_of_not_empty (ad_data : list Z) : hci_cmd_of ad_data <> [].
Proof. unfold hci_cmd_of. discriminate. Qed.

(** X10. For a store of a capture session, [get_hci_commands] lists every
    packet, in the order of the store: entry number [i] of the listing is
    the name, address and command of packet number [i], so the numbers of
    the menu are the indices [replay_packet] takes. In any store, every
    command listed is not empty. *)
Theorem listing_matches_store (db : unicode_db) (s : list packet_info) :
  reachable db s ->
  get_hci_commands s = map (fun p => (name p, address p, hci_cmd p)) s /\
  length (get_hci_commands s) = length s /\
  (forall i p, nth_error s i = Some p ->
     nth_error (get_hci_commands s) i = Some (name p, address p, hci_cmd p)) /\
  (forall t, In t (get_hci_commands s) -> snd t <> []).
Proof.
  intros Hs. destruct (reachable_inv db s Hs) as [_ He].
  assert (E : get_hci_commands s = map (fun p => (name p, address p, hci_cmd p)) s).
  { unfold get_hci_commands. f_equal. apply filter_all. intros p Hp.
    destruct (encoded_shape db p (proj1 (Forall_forall _ _) He p Hp))
      as (_ & _ & _ & Hc & _).
    destruct (hci_cmd p) eqn:Ec; [|reflexivity].
    exfalso. symmetry in Hc. exact (hci_cmd_of_not_empty _ Hc). }
  split; [exact E|]. rewrite E. split; [apply length_map|]. split.
  - intros i p Hi. rewrite nth_error_map, Hi. reflexivity.
  - intros t Ht. apply in_map_iff in Ht. destruct Ht as (p & <- & Hp).
    cbn [snd].
    destruct (encoded_shape db p (proj1 (Forall_forall _ _) He p Hp))
      as (_ & _ & _ & Hc & _).
    rewrite Hc. apply hci_cmd_of_not_empty.
Qed.

(** X11. Replaying a packet of a capture session always reaches the process
    layer: for an index within the store, exactly one command is run, whose
    words are the invocation up to the opcode pair followed by the 32
    parameters of the packet's payload (39 words); the outcome is [Success]
    for return code 0, [ExecutionFailed] with the error text otherwise, and
    [LaunchError] when the process layer raises. The store is unchanged. *)
Theorem replay_of_captured_packet (db : unicode_db)
    (run : list (list N) -> result (Z * list N))
    (s : list packet_info) (index : Z) (p : packet_info) :
  reachable db s ->
  0 <= index ->
  nth_error s (Z.to_nat index) = Some p ->
  let cmd := opcode_words ++ hci_params_of (raw_data p) in
  length cmd = 39%nat /\
  replay_packet db run s index =
    (Ok match run cmd with
        | Ok (returncode, stderr) =>
            if returncode =? 0 then Success else ExecutionFailed stderr
        | Raise e => LaunchError e
        end, [cmd], s).
Proof.
  intros Hs H0 Hn cmd.
  destruct (reachable_inv db s Hs) as [_ He].
  destruct (encoded_shape db p
              (proj1 (Forall_forall _ _) He p (nth_error_In _ _ Hn)))
    as (_ & [_ Hlen] & Hby & Hc & _).
  destruct (hci_cmd_of_eq _ Hlen Hby) as (_ & H32 & _).
  split; [unfold cmd; rewrite length_app, H32; reflexivity|].
  unfold replay_packet.
  assert (Hlt : index < Z.of_nat (length s)).
  { assert (Z.to_nat index < length s)%nat
      by (apply nth_error_Some; congruence). lia. }
  destruct (Z.leb_spec 0 index); [|lia].
  destruct (Z.ltb_spec index (Z.of_nat (length s))); [|lia].
  cbn [andb]. rewrite Hn.
  destruct (hci_cmd p) as [|c0 r0] eqn:Ec;
    [exfalso; symmetry in Hc; exact (hci_cmd_of_not_empty _ Hc)|].
  rewrite Hc, (hci_cmd_words db _ Hlen Hby). fold cmd.
  destruct (run cmd) as [[rc err]|e]; [|reflexivity].
  destruct (rc =? 0); reflexivity.
Qed.

(** X12. Whatever the store, the index and the process layer, the replay
    raises nothing (the guard keeps the subscript in bounds, also for a
    negative index, which Python would count from the end), leaves the
    store as it is, and runs at most one command; it runs none unless the
    index is within the store and the packet there has a command. *)
Theorem replay_is_safe (db : unicode_db)
    (run : list (list N) -> result (Z * list N))
    (s : list packet_info) (index : Z) :
  exists o cmds,
    replay_packet db run s index = (Ok o, cmds, s) /\
    (length cmds <= 1)%nat /\
    (cmds <> [] ->
     exists p, 0 <= index < Z.of_nat (length s) /\
               nth_error s (Z.to_nat index) = Some p /\ hci_cmd p <> [] /\
               cmds = [split_ws db (hci_cmd p)]).
Proof.
  unfold replay_packet.
  destruct (Z.leb_spec 0 index), (Z.ltb_spec index (Z.of_nat (length s)));
    cbn [andb];
    try (exists IndexOutOfRange, []; repeat split; auto; congruence).
  destruct (nth_error s (Z.to_nat index)) as [p|] eqn:E.
  - destruct (hci_cmd p) as [|c0 r0] eqn:Ec.
    + exists NoCommand, []. repeat split; auto; congruence.
    + destruct (run _) as [[rc err]|e];
        [destruct (rc =? 0)|]; eexists _, _;
        (split; [reflexivity|]); (split; [cbn [length]; lia|]);
        intros _; exists p; rewrite Ec;
        repeat split; auto; discriminate.
  - apply nth_error_None in E. lia.
Qed.

(* ------------------------------------------------------------------ *)
(** ** What is printed and what is written *)

(** X13. The callback prints a packet exactly when it stores a new one: its
    store is that of [detection_callback]; when the store keeps its length
    nothing is printed, and when a packet is appended the seven texts of
    [print_packet_info] for that packet are printed. *)
Theorem callback_prints_new_packets_only (db : unicode_db)
    (tn ta : option (list (list N))) (now : list N) (device : BLEDevice)
    (adv : AdvertisementData) (s s' : list packet_info) (out : list (list N)) :
  detection_callback_full db tn ta now device adv s = Ok (s', out) ->
  detection_callback db tn ta now device adv s = Ok s' /\
  ((length s' = length s /\ out = []) \/
   (exists packet,
      parse_advertisement_data db now device adv = Ok packet /\
      s' = s ++ [packet] /\ out = print_packet_info packet /\
      length out = 7%nat)).
Proof.
  unfold detection_callback_full, detection_callback.
  destruct (filtered_out tn ta device); [intros [= <- <-]; auto|].
  destruct (parse_advertisement_data db now device adv) as [packet|e] eqn:P;
    [|discriminate]. cbn [bind].
  destruct (find_existing packet s) as [i|]; intros [= <- <-].
  - split; [reflexivity|]. left. split; [apply update_at_length|reflexivity].
  - split; [reflexivity|]. right. exists packet.
    repeat split.
    destruct (parse_fields _ _ _ _ _ P) as (_ & _ & _ & _ & _ & _ & _ & Hne).
    unfold print_packet_info. destruct (raw_data packet); [congruence|].
    reflexivity.
Qed.



(* ------------------------------------------------------------------ *)
(** ** Which digits of a UUID reach the payload *)

Lemma digit_value_range (c : N) (d : Z) :
  digit_value c = Some d -> 0 <= d < 16.
Proof.
  unfold digit_value.
  destruct (N.leb_spec 48 c), (N.leb_spec c 57), (N.leb_spec 97 c),
    (N.leb_spec c 102), (N.leb_spec 65 c), (N.leb_spec c 70);
    cbn [andb]; intros [= <-]; lia.
Qed.

Lemma hex_fold_acc (s : list N) (acc : Z) :
  Forall is_hex_digit s ->
  fold_left (fun a c => match digit_value c with
                        | Some d => a * 16 + d
                        | None => a
                        end) s acc
  = acc * 16 ^ Z.of_nat (length s) + hex_value s /\
  0 <= hex_value s < 16 ^ Z.of_nat (length s).
Proof.
  unfold hex_value. intros H. revert acc.
  induction H as [|c s [d Hd] _ IH]; intros acc.
  - cbn [fold_left length]. change (16 ^ Z.of_nat 0) with 1. lia.
  - cbn [fold_left length]. rewrite Hd.
    pose proof (digit_value_range c d Hd) as Hr.
    destruct (IH (acc * 16 + d)) as [E1 B]. destruct (IH (0 * 16 + d)) as [E2 _].
    rewrite E1, E2.
    replace (Z.of_nat (S (length s))) with (Z.of_nat (length s) + 1) by lia.
    rewrite Z.pow_add_r by lia. change (16 ^ 1) with 16.
    assert (0 < 16 ^ Z.of_nat (length s)) by (apply Z.pow_pos_nonneg; lia).
    split; [ring|]. nia.
Qed.

Lemma first_group_hex (g rest : list N) :
  Forall is_hex_digit g -> first_group (g ++ dash :: rest) = g.
Proof.
  induction 1 as [|c g Hc _ IH].
  - cbn [app]. rewrite first_group_cons. reflexivity.
  - cbn [app]. rewrite first_group_cons.
    destruct (hex_digit_ascii c Hc) as (_ & _ & _ & Hm & _).
    destruct (N.eqb_spec c dash) as [E|_]; [contradiction|].
    rewrite IH. reflexivity.
Qed.

(** X15. Of a 36-character service UUID whose first group consists of
    hexadecimal digits, only the last four digits of that group reach the
    payload: the element is 03 03 followed by the value of these four
    digits, low byte first, whatever the digits before them and whatever
    follows the first dash. *)
Theorem uuid_element_uses_last_four_digits (db : unicode_db)
    (g1 g2 rest : list N) :
  Forall is_hex_digit g1 -> Forall is_hex_digit g2 ->
  length g2 = 4%nat ->
  length (g1 ++ g2 ++ dash :: rest) = 36%nat ->
  service_uuid_element db (g1 ++ g2 ++ dash :: rest) =
    emit ([0x03; 0x03] ++ le16 (hex_value g2)) /\
  0 <= hex_value g2 <= 0xFFFF.
Proof.
  intros H1 H2 H4 H36.
  assert (Hg : Forall is_hex_digit (g1 ++ g2)) by (apply Forall_app; auto).
  destruct (hex_fold_acc g2 (hex_value g1) H2) as [E B].
  rewrite H4 in *. change (16 ^ Z.of_nat 4) with 65536 in *.
  split; [|lia].
  rewrite service_uuid_element_eq. unfold service_uuid_value.
  rewrite H36. cbn [Nat.eqb].
  rewrite app_assoc, (first_group_hex (g1 ++ g2) rest Hg).
  rewrite int_base16_hex; [|destruct g1, g2; discriminate|exact Hg].
  assert (Ev : hex_value (g1 ++ g2) = hex_value g1 * 65536 + hex_value g2).
  { unfold hex_value at 1. rewrite fold_left_app. exact E. }
  rewrite Ev. change 0xFFFF with (Z.ones 16).
  rewrite Z.land_ones by lia. change (2 ^ 16) with 65536.
  rewrite Z.add_comm, Z.mod_add by lia. rewrite Z.mod_small by lia.
  reflexivity.
Qed.

(* ------------------------------------------------------------------ *)
(** ** An entry that passes the gate and is cut all the same *)

Lemma for_each_manufacturer_member (md : list (Z * list byte))
    (kv : Z * list byte) :
  snd (for_each manufacturer_element md) = None -> In kv md ->
  snd (manufacturer_element kv) = None /\
  (length (fst (manufacturer_element kv))
   <= length (fst (for_each manufacturer_element md)))%nat.
Proof.
  induction md as [|x md IH]; intros H Hin; [destruct Hin|].
  cbn [for_each] in *.
  destruct (manufacturer_element x) as [l [e|]] eqn:Ex; [discriminate|].
  cbn [seq fst snd] in *. rewrite length_app.
  destruct Hin as [->|Hin].
  - rewrite Ex. cbn [fst snd]. split; [reflexivity|lia].
  - destruct (IH H Hin) as [Hs Hl]. split; [exact Hs|lia].
Qed.

(** X16. The gate on an entry compares its length with 31 although three
    bytes of flags always come first: when the encoder returns a packet and
    the manufacturer data has an entry of 25 to 28 data bytes, the entry is
    appended in full (its company identifier is then a 16-bit number), the
    elements together exceed 31 bytes, and the payload is their first 31
    bytes. *)
Theorem large_entry_is_cut (db : unicode_db) (now : list N)
    (device : BLEDevice) (adv : AdvertisementData) (p : packet_info)
    (company_id : Z) (data : list byte) :
  parse_advertisement_data db now device adv = Ok p ->
  In (company_id, data) (manufacturer_data adv) ->
  (25 <= length data <= 28)%nat ->
  0 <= company_id <= 0xFFFF /\
  manufacturer_element (company_id, data) =
    emit ([2 + Z.of_nat (length data) + 1; 0xFF]
          ++ le16 company_id ++ ints_of_bytes data) /\
  (31 < length (fst (build_ad_data db device adv)))%nat /\
  raw_data p = firstn 31 (fst (build_ad_data db device adv)) /\
  length (raw_data p) = 31%nat.
Proof.
  intros Hp Hin Hlen.
  destruct (parse_ok_inv _ _ _ _ _ Hp) as (ad & Hb & ->).
  rewrite finish_raw_data, limit31_firstn, Hb. cbn [fst].
  assert (Hm : snd (for_each manufacturer_element (manufacturer_data adv))
               = None).
  { unfold build_ad_data, other_elements in Hb. rewrite seq_emit in Hb.
    rewrite (for_each_ok (service_uuid_element db)) in Hb by reflexivity.
    rewrite (for_each_ok (service_data_element db)) in Hb by reflexivity.
    destruct (local_name (dev_name device)) as [ln [e|]]; [discriminate|].
    rewrite !seq_emit in Hb. cbn [seq fst snd] in Hb.
    apply (f_equal snd) in Hb. exact Hb. }
  destruct (for_each_manufacturer_member _ _ Hm Hin) as [Hs Hl].
  assert (Hc : 0 <= company_id <= 0xFFFF).
  { rewrite manufacturer_element_raises in Hs. unfold bad_manufacturer in Hs.
    cbn [fst snd] in Hs.
    destruct (Z.leb_spec (2 + Z.of_nat (length data) + 1) 31); [|lia].
    destruct (Z.leb_spec 0 company_id), (Z.leb_spec company_id 65535);
      cbn [andb negb] in Hs; try discriminate. lia. }
  assert (He := manufacturer_element_eq company_id data Hc).
  destruct (Z.leb_spec (2 + Z.of_nat (length data) + 1) 31); [|lia].
  split; [exact Hc|]. split; [exact He|].
  assert (Hbig : (31 < length ad)%nat).
  { rewrite He in Hl. cbn [emit fst] in Hl.
    rewrite !length_app in Hl. unfold ints_of_bytes in Hl.
    rewrite length_map in Hl. cbn [le16 length] in Hl.
    unfold build_ad_data, other_elements in Hb. rewrite seq_emit in Hb.
    rewrite (for_each_ok (service_uuid_element db)) in Hb by reflexivity.
    rewrite (for_each_ok (service_data_element db)) in Hb by reflexivity.
    destruct (local_name (dev_name device)) as [ln [e|]]; [discriminate|].
    rewrite !seq_emit in Hb. cbn [seq fst snd] in Hb.
    apply (f_equal (fun x => length (fst x))) in Hb. cbn [fst] in Hb.
    rewrite <- Hb, !length_app. cbn [flags length]. lia. }
  split; [exact Hbig|]. split; [reflexivity|].
  rewrite length_firstn. lia.
Qed.

(* ------------------------------------------------------------------ *)
(** ** The further statements on concrete observations *)

Lemma session_of_one : reachable latin1_db [pkt_test now0].
Proof.
  apply (reachable_step latin1_db None None now0 dev_test adv_empty []);
    [constructor|reflexivity].
Qed.

Lemma long_name_takes_payload_witness :
  exists p,
    parse_advertisement_data latin1_db now0 dev_long_name adv_mixed = Ok p /\
    raw_data p =
      [0x02; 0x01; 0x06; 30; 0x09]
      ++ map (fun c => Z.of_N c) (lit "ABCDEFGHIJKLMNOPQRSTUVWXYZ") /\
    length (raw_data p) = 31%nat.
Proof.
  destruct (parse_advertisement_data latin1_db now0 dev_long_name adv_mixed)
    as [p|e] eqn:E; [|vm_compute in E; discriminate].
  exists p. split; [reflexivity|].
  destruct (long_name_takes_payload latin1_db now0 dev_long_name adv_mixed
              65%N (lit "BCDEFGHIJKLMNOPQRSTUVWXYZ0123")
              (map (fun c => Z.of_N c) (lit "ABCDEFGHIJKLMNOPQRSTUVWXYZ0123"))
              p eq_refl eq_refl ltac:(cbn; lia) E) as (H1 & H2 & _).
  split; [exact H1|exact H2].
Defined.

Lemma command_round_trip_witness :
  map (int_base16 latin1_db)
      (after_opcode (split_ws latin1_db (hci_cmd (pkt_test now0)))) =
    map Ok (9 :: test_payload ++ repeat 0 22) /\
  length (hci_cmd (pkt_test now0)) = 132%nat.
Proof.
  exact (command_round_trip latin1_db now0 dev_test adv_empty (pkt_test now0)
           eq_refl).
Defined.

Lemma printed_hex_dump_witness :
  length (print_packet_info (pkt_test now0)) = 7%nat /\
  map (int_base16 latin1_db)
      (split_ws latin1_db (hex_dump (raw_data (pkt_test now0)))) =
    map Ok test_payload.
Proof.
  destruct (printed_hex_dump_reads_back latin1_db now0 dev_test adv_empty
              (pkt_test now0) eq_refl) as [H1 H2].
  split; [rewrite H1; reflexivity|exact H2].
Defined.

Lemma fitting_payload_witness :
  exists p,
    parse_advertisement_data latin1_db now0 dev_test adv_mixed = Ok p /\
    (length (fst (build_ad_data latin1_db dev_test adv_mixed)) <= 31)%nat /\
    ad_structures (raw_data p).
Proof.
  destruct (parse_advertisement_data latin1_db now0 dev_test adv_mixed)
    as [p|e] eqn:E; [|vm_compute in E; discriminate].
  assert (Hfit : (length (fst (build_ad_data latin1_db dev_test adv_mixed))
                  <= 31)%nat) by (vm_compute; lia).
  exists p. split; [reflexivity|]. split; [exact Hfit|].
  exact (proj1 (fitting_payload_is_ad_structures _ _ _ _ _ E Hfit)).
Defined.

Lemma session_store_invariant_witness :
  reachable latin1_db [pkt_test now0] /\
  distinct_keys [pkt_test now0] /\
  hci_cmd (pkt_test now0) = hci_cmd_of (raw_data (pkt_test now0)).
Proof.
  split; [exact session_of_one|].
  destruct (session_store_invariant latin1_db _ session_of_one) as [Hd Hp].
  split; [exact Hd|].
  destruct (Hp (pkt_test now0) (or_introl eq_refl)) as (_ & _ & _ & Hc & _).
  exact Hc.
Defined.

Lemma callback_keeps_earlier_packets_witness :
  exists s',
    detection_callback latin1_db None None now1 dev_nameless adv_mixed
      [pkt_test now0] = Ok s' /\
    (1 <= length s' <= 2)%nat /\
    exists p', nth_error s' 0 = Some p' /\
               raw_data p' = raw_data (pkt_test now0).
Proof.
  destruct (detection_callback latin1_db None None now1 dev_nameless adv_mixed
              [pkt_test now0]) as [s'|e] eqn:E; [|vm_compute in E; discriminate].
  exists s'. split; [reflexivity|].
  destruct (callback_keeps_earlier_packets _ _ _ _ _ _ _ _ E) as [Hl Hk].
  split; [exact Hl|].
  destruct (Hk 0%nat (pkt_test now0) eq_refl) as (p' & Hn & _ & _ & Hr & _).
  exists p'. split; assumption.
Defined.

Lemma callback_idempotent_witness :
  exists s1,
    detection_callback latin1_db None None now1 dev_test adv_weak
      [pkt_test now0] = Ok s1 /\
    detection_callback latin1_db None None now1 dev_test adv_weak s1 = Ok s1.
Proof.
  destruct (detection_callback latin1_db None None now1 dev_test adv_weak
              [pkt_test now0]) as [s1|e] eqn:E; [|vm_compute in E; discriminate].
  exists s1. split; [reflexivity|].
  exact (callback_idempotent _ _ _ _ _ _ _ _ E).
Defined.

Lemma rssi_change_witness :
  exists s2,
    detection_callback latin1_db None None now1 dev_test adv_weak
      [pkt_test now0] = Ok s2 /\
    length s2 = 1%nat.
Proof.
  destruct (rssi_change_does_not_grow_store latin1_db None None now0 now1
              dev_test adv_empty adv_weak [] [pkt_test now0]
              eq_refl eq_refl eq_refl eq_refl eq_refl)
    as (s2 & i & q & H1 & H2 & _).
  exists s2. split; [exact H1|exact H2].
Defined.

Lemma listing_matches_store_witness :
  reachable latin1_db [pkt_test now0] /\
  get_hci_commands [pkt_test now0] =
    [(lit "Test", lit "AA:BB:CC:DD:EE:FF", hci_cmd (pkt_test now0))].
Proof.
  split; [exact session_of_one|].
  exact (proj1 (listing_matches_store latin1_db _ session_of_one)).
Defined.

Lemma replay_of_captured_packet_witness :
  reachable latin1_db [pkt_test now0] /\
  replay_packet latin1_db run_ok [pkt_test now0] 0 =
    (Ok Success, [opcode_words ++ hci_params_of test_payload],
     [pkt_test now0]).
Proof.
  split; [exact session_of_one|].
  exact (proj2 (replay_of_captured_packet latin1_db run_ok [pkt_test now0] 0
                  (pkt_test now0) session_of_one ltac:(lia) eq_refl)).
Defined.

Lemma callback_prints_witness :
  exists s' out,
    detection_callback_full latin1_db None None now1 dev_nameless adv_mixed
      [pkt_test now0] = Ok (s', out) /\
    length s' = 2%nat /\ length out = 7%nat.
Proof.
  destruct (detection_callback_full latin1_db None None now1 dev_nameless
              adv_mixed [pkt_test now0]) as [[s' out]|e] eqn:E;
    [|vm_compute in E; discriminate].
  exists s', out. split; [reflexivity|].
  destruct (callback_prints_new_packets_only _ _ _ _ _ _ _ _ _ E)
    as [_ [[Hl Ho]|(packet & _ & Hs & _ & Ho)]].
  - exfalso. vm_compute in E. injection E as <- <-. discriminate Hl.
  - split; [rewrite Hs, length_app; reflexivity|exact Ho].
Defined.

Lemma uuid_element_uses_last_four_digits_witness :
  service_uuid_element latin1_db battery_uuid =
    emit ([0x03; 0x03] ++ le16 (hex_value (lit "180f"))) /\
  0 <= hex_value (lit "180f") <= 0xFFFF.
Proof.
  assert (H1 : Forall is_hex_digit (lit "0000"))
    by (repeat constructor; eexists; reflexivity).
  assert (H2 : Forall is_hex_digit (lit "180f"))
    by (repeat constructor; eexists; reflexivity).
  exact (uuid_element_uses_last_four_digits latin1_db (lit "0000") (lit "180f")
           (lit "0000-1000-8000-00805f9b34fb") H1 H2 eq_refl eq_refl).
Defined.

Lemma large_entry_is_cut_witness :
  exists p,
    parse_advertisement_data latin1_db now0 dev_nameless adv_long = Ok p /\
    (31 < length (fst (build_ad_data latin1_db dev_nameless adv_long)))%nat /\
    length (raw_data p) = 31%nat.
Proof.
  destruct (parse_advertisement_data latin1_db now0 dev_nameless adv_long)
    as [p|e] eqn:E; [|vm_compute in E; discriminate].
  exists p. split; [reflexivity|].
  destruct (large_entry_is_cut latin1_db now0 dev_nameless adv_long p
              0x004C (repeat x01 28) E (or_introl eq_refl)
              ltac:(cbn; lia)) as (_ & _ & H3 & _ & H5).
  split; [exact H3|exact H5].
Defined.
